(** * pdfquad: property extraction (src/pdfquad/properties.py)

    A shallow embedding of the property-extraction module of pdfquad and
    the verification of its specification.

    Python values are a small inductive type, dictionaries are
    association lists in insertion order, lxml elements are labelled
    trees, raised exceptions are the [Raise] side of a result type.  The
    libraries the module calls (pymupdf, PIL, ImageCms, jpegquality,
    os.path) are not part of the module: what they answer is taken as
    section variables and as fields of the objects they hand back.
    [logging.warning] does not touch the returned tree and is left out.

    What the embedding leaves out are failures, never results: lxml
    refuses a tag that is no XML name and a text with a control
    character, and the reads of an open document (page count, metadata,
    catalog, signature flags) can raise.  The embedding returns in those
    cases.  So whatever the embedding raises the module raises too, and
    whatever the module returns the embedding returns too; the
    statements on a whole node or report are made on what is returned. *)

From Stdlib Require Import ZArith List String Ascii Bool Lia.
From Stdlib Require Import DecimalString DecimalZ.
Import ListNotations.

Set Warnings "-register-all".

Open Scope string_scope.
Open Scope Z_scope.
Open Scope list_scope.

(** ** Python values, exceptions and results *)

Definition bytes := list Byte.byte.

(** The values that reach the property dictionaries.  [PObj] is any
    other object (a float, a dict, a list), kept as the text [str] gives
    for it: float arithmetic is not modelled. *)
Inductive pyval : Type :=
| PNone
| PBool (b : bool)
| PInt (z : Z)
| PObj (text : string)
| PStr (s : string)
| PBytes (b : bytes)
| PTuple (items : list pyval).

Inductive pyexn : Type :=
| KeyError (key : string)
| IndexError (msg : string)
| ValueError (msg : string)
| AttributeError (msg : string)
| Raised (msg : string).   (* raised inside a library call, with its message *)

Inductive result (A : Type) : Type :=
| Ok (a : A)
| Raise (e : pyexn).
Arguments Ok {A} a.
Arguments Raise {A} e.

Definition bind {A B} (r : result A) (k : A -> result B) : result B :=
  match r with
  | Ok a => k a
  | Raise e => Raise e
  end.

Notation "x <- r ;; k" := (bind r (fun x => k))
  (at level 61, r at next level, right associativity).

(** [str(e)]: a KeyError prints the repr of its key, the others their
    message.  The only KeyError whose text is ever taken is the one for
    the key 'icc_profile', whose repr is the key between single quotes. *)
Definition str_exn (e : pyexn) : string :=
  match e with
  | KeyError key => ("'" ++ key ++ "'")%string
  | IndexError msg | ValueError msg | AttributeError msg | Raised msg => msg
  end.

(** [str(n)] for an int: decimal digits, a minus sign when negative. *)
Definition str_int (z : Z) : string := NilZero.string_of_int (Z.to_int z).

Definition str_bool (b : bool) : string := if b then "True" else "False".

(** Python's whitespace, ASCII part. *)
Definition is_space (c : ascii) : bool :=
  let n := nat_of_ascii c in
  ((9 <=? n) && (n <=? 13) || (28 <=? n) && (n <=? 32))%nat.

Fixpoint lstrip (s : string) : string :=
  match s with
  | EmptyString => EmptyString
  | String c r => if is_space c then lstrip r else s
  end.

Fixpoint rstrip (s : string) : string :=
  match s with
  | EmptyString => EmptyString
  | String c r =>
      let r' := rstrip r in
      if is_space c && (r' =? "")%string then EmptyString else String c r'
  end.

(** The whitespace [int] skips around a literal, ASCII part. *)
Definition strip (s : string) : string := rstrip (lstrip s).

(** [isinstance(v, int)]; a bool is an int. *)
Definition is_int (v : pyval) : bool :=
  match v with PInt _ | PBool _ => true | _ => false end.
Definition is_bytes (v : pyval) : bool :=
  match v with PBytes _ => true | _ => false end.
Definition is_tuple (v : pyval) : bool :=
  match v with PTuple _ => true | _ => false end.

(** [seq[i]] on a tuple or list of values, [i] a literal index >= 0. *)
Definition index (items : list pyval) (i : nat) : result pyval :=
  match nth_error items i with
  | Some v => Ok v
  | None => Raise (IndexError "tuple index out of range")
  end.

(** [value[i]] on any value; only tuples are ever subscripted. *)
Definition subscript (v : pyval) (i : nat) : result pyval :=
  match v with
  | PTuple items => index items i
  | _ => Raise (Raised "object is not subscriptable")
  end.

(** ** Dictionaries: insertion-ordered, assignment keeps the position *)

Definition pydict (V : Type) := list (string * V).

Fixpoint dict_get {V} (d : pydict V) (key : string) : option V :=
  match d with
  | [] => None
  | (k, v) :: rest => if (k =? key)%string then Some v else dict_get rest key
  end.

(** [d[key]] *)
Definition dict_getitem {V} (d : pydict V) (key : string) : result V :=
  match dict_get d key with
  | Some v => Ok v
  | None => Raise (KeyError key)
  end.

(** [d[key] = value] *)
Fixpoint dict_set {V} (d : pydict V) (key : string) (value : V) : pydict V :=
  match d with
  | [] => [(key, value)]
  | (k, v) :: rest =>
      if (k =? key)%string then (k, value) :: rest
      else (k, v) :: dict_set rest key value
  end.

Definition dict_keys {V} (d : pydict V) : list string := map fst d.

(** ** lxml elements *)

Inductive Element : Type :=
| Elt (tag : string) (attrib : list (string * string))
      (text : option string) (children : list Element).

(** [etree.Element(tag)]: no attribute, no text, no child. *)
Definition etree_Element (tag : string) : Element := Elt tag [] None [].

Definition tag_of (e : Element) : string :=
  match e with Elt t _ _ _ => t end.
Definition text_of (e : Element) : option string :=
  match e with Elt _ _ t _ => t end.
Definition children_of (e : Element) : list Element :=
  match e with Elt _ _ _ c => c end.

(** [elt.text = s] *)
Definition set_text (e : Element) (s : string) : Element :=
  match e with Elt t a _ c => Elt t a (Some s) c end.

(** [elt.attrib[key] = value] *)
Definition set_attrib (e : Element) (key value : string) : Element :=
  match e with Elt t a x c => Elt t (dict_set a key value) x c end.

(** [parent.append(child)] *)
Definition append (parent child : Element) : Element :=
  match parent with Elt t a x c => Elt t a x (c ++ [child]) end.

(** [ex = etree.SubElement(parent, tag); ex.text = s].  The new element
    is attached to [parent] before its text is set; the assignment goes
    through the shared object, so [parent] sees it. *)
Definition SubElement_text (parent : Element) (tag s : string) : Element :=
  append parent (set_text (etree_Element tag) s).

(** [elt.find(tag)] for a plain tag, as in the one call of the module,
    [find('xref')]: the first child with that tag. *)
Definition find (e : Element) (tag : string) : option Element :=
  List.find (fun c => (tag_of c =? tag)%string) (children_of e).

Definition has_child (e : Element) (tag : string) : bool :=
  existsb (fun c => (tag_of c =? tag)%string) (children_of e).

(** ** What the libraries hand back *)

(** A decoded [PIL.Image]: the attributes the module reads. *)
Record Image : Type := {
  format : string;
  size : Z * Z;
  mode : string;
  getbands : list string;
  info : pydict pyval
}.

(** An [ImageCms.ImageCmsProfile] with what the two getters answer. *)
Record CmsProfile : Type := {
  getProfileName : result string;
  getProfileDescription : result string
}.

(** One item of [page.get_images(full=False)]: a tuple of values. *)
Definition imageref := list pyval.

(** A pymupdf page. *)
Record Page : Type := {
  get_images : result (list imageref)
}.

(** An open pymupdf document.  [doc_pages] is what [for page in doc]
    yields. *)
Record Document : Type := {
  authenticate : string -> result Z;
  page_count : Z;
  metadata : pydict pyval;
  pdf_catalog : Z;
  xref_get_key : Z -> string -> string * string;
  get_sigflags : Z;
  doc_pages : list Page;
  xref_stream_raw : Z -> result bytes
}.

(** ** The module *)

Section Properties.

Set Default Proof Using "Type".

(** [repr] of a bytes or tuple value (Python's own printing). *)
Variable repr : pyval -> string.
(** [os.path.getsize] *)
Variable getsize : string -> result Z.
(** [pymupdf.open] *)
Variable pymupdf_open : string -> result Document.
(** [PIL.Image.open(io.BytesIO(stream))] followed by [im.load()] *)
Variable PIL_open : bytes -> result Image.
(** [jpegquality.computeJPEGQuality]: quality, rmsError, nse *)
Variable computeJPEGQuality : Image -> result (pyval * pyval * pyval).
(** [ImageCms.ImageCmsProfile(io.BytesIO(icc))] *)
Variable ImageCmsProfile : pyval -> result CmsProfile.
(** [s.strip()] of a str: Python's own, Unicode whitespace included *)
Variable str_strip : string -> string.

(** [int(s)] on a str that is not a plain decimal literal *)
Variable int_literal : string -> result Z.

(** [int(s)] for a str.  A literal made of ASCII whitespace, an optional
    sign and decimal digits is read here; any other one (underscores,
    Unicode digits or whitespace, or no number at all) is left to
    [int_literal]. *)
Definition int_of_str (s : string) : result Z :=
  match strip s with
  | EmptyString => int_literal s
  | String c r =>
      if (c =? "+")%char then
        match NilZero.uint_of_string r with
        | Some d => Ok (Z.of_uint d)
        | None => int_literal s
        end
      else
        match NilZero.int_of_string (String c r) with
        | Some d => Ok (Z.of_int d)
        | None => int_literal s
        end
  end.

(** [str(value)] *)
Definition str (value : pyval) : string :=
  match value with
  | PNone => "None"
  | PBool b => str_bool b
  | PInt z => str_int z
  | PObj text => text
  | PStr s => s
  | PBytes _ | PTuple _ => repr value
  end.

(** Create Element object from dictionary *)
Definition dictionaryToElt (name : string) (dictionary : pydict pyval) : Element :=
  fold_left
    (fun elt (item : string * pyval) =>
       let (key, value) := item in
       let child := etree_Element key in
       let child := set_text child (str value) in
       append elt child)
    dictionary (etree_Element name).

Definition mode_to_bpp : pydict pyval :=
  [("1", PInt 1); ("L", PInt 8); ("P", PInt 8); ("RGB", PInt 24);
   ("RGBA", PInt 32); ("CMYK", PInt 32); ("YCbCr", PInt 24);
   ("LAB", PInt 24); ("HSV", PInt 24); ("I", PInt 32); ("F", PInt 32)].

(** [int(a / b)] for ints [a], [b <> 0]: the true quotient cut towards
    zero.  (The table's values are at most 32: the float quotient is
    never rounded up to the next integer.) *)
Definition int_truediv (a : pyval) (b : Z) : Z :=
  match a with
  | PInt z => Z.quot z b
  | PBool t => Z.quot (Z.b2z t) b
  | _ => 0
  end.

(** Return Bits per Component as a function of mode and components values *)
Definition getBPC (image : Image) : result Z :=
  bitsPerPixel <- dict_getitem mode_to_bpp (mode image) ;;
  let noComponents := Z.of_nat (List.length (getbands image)) in
  if negb (noComponents =? 0) && is_int bitsPerPixel
  then Ok (int_truediv bitsPerPixel noComponents)
  else Ok (-9999).

(** Extract image dictionary properties and return result as Element object *)
Definition getImageDictProperties (image : imageref) (pageNo : Z) : result Element :=
  let propsDict : pydict pyval := [] in
  v <- index image 0 ;; let propsDict := dict_set propsDict "xref" v in
  v <- index image 2 ;; let propsDict := dict_set propsDict "width" v in
  v <- index image 3 ;; let propsDict := dict_set propsDict "height" v in
  v <- index image 4 ;; let propsDict := dict_set propsDict "bpc" v in
  v <- index image 5 ;; let propsDict := dict_set propsDict "colorspace" v in
  v <- index image 6 ;; let propsDict := dict_set propsDict "altcolorspace" v in
  v <- index image 8 ;; let propsDict := dict_set propsDict "filter" v in
  Ok (dictionaryToElt "dict" propsDict).

(** The [if im.format == "JPEG"] block: the dictionary and the list of
    stream exceptions after it. *)
Definition quality_step (im : Image) (propsStream : pydict pyval)
           (exceptionsStreamElt : Element) : pydict pyval * Element :=
  if (format im =? "JPEG")%string then
    match computeJPEGQuality im with
    | Ok (quality, rmsError, nse) =>
        let propsStream := dict_set propsStream "JPEGQuality" quality in
        let propsStream := dict_set propsStream "NSE_JPEGQuality" nse in
        (propsStream, exceptionsStreamElt)
    | Raise e =>
        (propsStream, SubElement_text exceptionsStreamElt "exception" (str_exn e))
    end
  else (propsStream, exceptionsStreamElt).

(** One round of [for key, value in im.info.items()]. *)
Definition merge_item (propsStream : pydict pyval) (item : string * pyval)
  : result (pydict pyval) :=
  let (key, value) := item in
  if is_bytes value then
    Ok (dict_set propsStream key (PStr "bytestream"))
  else if (key =? "dpi")%string && is_tuple value then
    v0 <- subscript value 0 ;;
    let propsStream := dict_set propsStream "ppi_x" v0 in
    v1 <- subscript value 1 ;;
    Ok (dict_set propsStream "ppi_y" v1)
  else if (key =? "jfif_density")%string && is_tuple value then
    v0 <- subscript value 0 ;;
    let propsStream := dict_set propsStream "jfif_density_x" v0 in
    v1 <- subscript value 1 ;;
    Ok (dict_set propsStream "jfif_density_y" v1)
  else if is_tuple value then
    Ok propsStream
  else
    Ok (dict_set propsStream key value).

Fixpoint merge_info (propsStream : pydict pyval) (items : pydict pyval)
  : result (pydict pyval) :=
  match items with
  | [] => Ok propsStream
  | item :: rest =>
      propsStream <- merge_item propsStream item ;;
      merge_info propsStream rest
  end.

(** The last [try] block: ICC profile name and description.  What was
    assigned before the exception stays in the dictionary. *)
Definition icc_step (im : Image) (propsStream : pydict pyval)
           (exceptionsStreamElt : Element) : pydict pyval * Element :=
  let caught e :=
    SubElement_text exceptionsStreamElt "exception" (str_exn e) in
  match dict_getitem (info im) "icc_profile" with
  | Raise e => (propsStream, caught e)
  | Ok icc =>
      match ImageCmsProfile icc with
      | Raise e => (propsStream, caught e)
      | Ok iccProfile =>
          match getProfileName iccProfile with
          | Raise e => (propsStream, caught e)
          | Ok name =>
              let propsStream :=
                dict_set propsStream "icc_profile_name" (PStr (str_strip name)) in
              match getProfileDescription iccProfile with
              | Raise e => (propsStream, caught e)
              | Ok description =>
                  (dict_set propsStream "icc_profile_description"
                            (PStr (str_strip description)),
                   exceptionsStreamElt)
              end
          end
      end
  end.

(** Extract image stream properties and return result as Element object *)
Definition getImageStreamProperties (stream : bytes) (pageNo : Z) : result Element :=
  let propsStream : pydict pyval := [] in
  let exceptionsStreamElt := etree_Element "exceptions" in
  match PIL_open stream with
  | Raise e =>
      let exceptionsStreamElt :=
        SubElement_text exceptionsStreamElt "exception" (str_exn e) in
      let propsStreamElt := dictionaryToElt "stream" propsStream in
      Ok (append propsStreamElt exceptionsStreamElt)
  | Ok im =>
      let propsStream := dict_set propsStream "format" (PStr (format im)) in
      let width := fst (size im) in
      let height := snd (size im) in
      let propsStream := dict_set propsStream "width" (PInt width) in
      let propsStream := dict_set propsStream "height" (PInt height) in
      let propsStream := dict_set propsStream "mode" (PStr (mode im)) in
      let noComponents := Z.of_nat (List.length (getbands im)) in
      let propsStream := dict_set propsStream "components" (PInt noComponents) in
      bitsPerComponent <- getBPC im ;;
      let propsStream := dict_set propsStream "bpc" (PInt bitsPerComponent) in
      let (propsStream, exceptionsStreamElt) :=
        quality_step im propsStream exceptionsStreamElt in
      propsStream <- merge_info propsStream (info im) ;;
      let (propsStream, exceptionsStreamElt) :=
        icc_step im propsStream exceptionsStreamElt in
      let propsStreamElt := dictionaryToElt "stream" propsStream in
      Ok (append propsStreamElt exceptionsStreamElt)
  end.

(** [int(elt.find(tag).text)] *)
Definition int_of_child_text (elt : Element) (tag : string) : result Z :=
  match find elt tag with
  | None => Raise (AttributeError "'NoneType' object has no attribute 'text'")
  | Some child =>
      match text_of child with
      | None => Raise (Raised "int() argument must be a string, not 'NoneType'")
      | Some s => int_of_str s
      end
  end.

(** Extract image properties and return result as Element object *)
Definition getImageProperties (doc : Document) (image : imageref) (pageNo : Z)
  : result Element :=
  let imageElt := etree_Element "image" in
  propsDictElt <- getImageDictProperties image pageNo ;;
  xref <- int_of_child_text propsDictElt "xref" ;;
  stream <- xref_stream_raw doc xref ;;
  propsStreamElt <- getImageStreamProperties stream pageNo ;;
  let imageElt := append imageElt propsDictElt in
  let imageElt := append imageElt propsStreamElt in
  Ok imageElt.

(** [for image in images] of getPageProperties *)
Fixpoint images_loop (doc : Document) (images : list imageref) (pageNo : Z)
         (pageElt : Element) : result Element :=
  match images with
  | [] => Ok pageElt
  | image :: rest =>
      imageElt <- getImageProperties doc image pageNo ;;
      images_loop doc rest pageNo (append pageElt imageElt)
  end.

(** Extract properties for one page and return result as Element object *)
Definition getPageProperties (doc : Document) (page : Page) (pageNo : Z)
  : result Element :=
  let pageElt := etree_Element "page" in
  let pageElt := set_attrib pageElt "number" (str_int pageNo) in
  images <- get_images page ;;
  images_loop doc images pageNo pageElt.

(** [for page in doc] of getProperties, with its counter *)
Fixpoint pages_loop (doc : Document) (pages : list Page) (pageNo : Z)
         (pagesElt : Element) : result Element :=
  match pages with
  | [] => Ok pagesElt
  | page :: rest =>
      pageElt <- getPageProperties doc page pageNo ;;
      pages_loop doc rest (pageNo + 1) (append pagesElt pageElt)
  end.

(** Extract properties and return result as Element object *)
Definition getProperties (PDF : string) : result Element :=
  let propertiesElt := etree_Element "properties" in
  let exceptionsFileElt := etree_Element "exceptions" in
  let fPathElt := set_text (etree_Element "filePath") PDF in
  fileSize <- getsize PDF ;;
  let fSizeElt := set_text (etree_Element "fileSize") (str_int fileSize) in
  let propertiesElt := append propertiesElt fPathElt in
  let propertiesElt := append propertiesElt fSizeElt in
  let openPasswordElt := etree_Element "openPassword" in
  match (doc <- pymupdf_open PDF ;;
         rc <- authenticate doc "whatever" ;;
         Ok (doc, rc)) with
  | Raise e =>
      let exceptionsFileElt :=
        SubElement_text exceptionsFileElt "exception" (str_exn e) in
      Ok (append propertiesElt exceptionsFileElt)
  | Ok (doc, rc) =>
      if rc =? 0 then
        let openPasswordElt := set_text openPasswordElt (str_bool true) in
        Ok (append propertiesElt openPasswordElt)
      else
        let openPasswordElt := set_text openPasswordElt (str_bool false) in
        let propertiesElt := append propertiesElt openPasswordElt in
        let pages := page_count doc in
        let metadataElt := dictionaryToElt "meta" (metadata doc) in
        let catXref := pdf_catalog doc in
        let pageMode := xref_get_key doc catXref "PageMode" in
        let pageModeElt := etree_Element "PageMode" in
        let pageModeElt :=
          if (fst pageMode =? "null")%string
          then set_text pageModeElt "undefined"
          else set_text pageModeElt (snd pageMode) in
        let signatureFlag := get_sigflags doc in
        let signatureFlagElt :=
          set_text (etree_Element "signatureFlag") (str_int signatureFlag) in
        pagesElt <- pages_loop doc (doc_pages doc) 1 (etree_Element "pages") ;;
        let propertiesElt := append propertiesElt metadataElt in
        let propertiesElt := append propertiesElt pageModeElt in
        let propertiesElt := append propertiesElt signatureFlagElt in
        let noPagesElt := set_text (etree_Element "noPages") (str_int pages) in
        let propertiesElt := append propertiesElt noPagesElt in
        let propertiesElt := append propertiesElt pagesElt in
        let propertiesElt := append propertiesElt exceptionsFileElt in
        Ok propertiesElt
  end.


(** ** Vocabulary of the statements *)

(** The child [dictionaryToElt] makes for one entry. *)
Definition item_elt (item : string * pyval) : Element :=
  Elt (fst item) [] (Some (str (snd item))) [].

(** An exception record: an [exception] element holding a message. *)
Definition exception_record (msg : string) : Element :=
  Elt "exception" [] (Some msg) [].

(** An [exceptions] container with one record per message. *)
Definition exceptions_elt (msgs : list string) : Element :=
  Elt "exceptions" [] None (map exception_record msgs).

(** A [stream] node: property children, then the exception container. *)
Definition stream_node (props : pydict pyval) (msgs : list string) : Element :=
  Elt "stream" [] None (map item_elt props ++ [exceptions_elt msgs]).

(** The mode has an entry in the table of [getBPC]. *)
Definition mode_listed (im : Image) : bool :=
  match dict_get mode_to_bpp (mode im) with Some _ => true | None => false end.

(** The entry is not a tuple under [dpi] or [jfif_density], or that tuple
    is a pair. *)
Definition pair_entry (item : string * pyval) : bool :=
  match snd item with
  | PTuple items =>
      if (fst item =? "dpi")%string || (fst item =? "jfif_density")%string
      then (List.length items =? 2)%nat else true
  | _ => true
  end.

(** The last value written to [key] in a sequence of assignments. *)
Fixpoint last_write (key : string) (writes : list (string * pyval)) : option pyval :=
  match writes with
  | [] => None
  | (k, v) :: rest =>
      match last_write key rest with
      | Some v' => Some v'
      | None => if (k =? key)%string then Some v else None
      end
  end.

(** A run of assignments, first to last. *)
Definition assign_all (d : pydict pyval) (writes : list (string * pyval))
  : pydict pyval :=
  fold_left (fun d w => dict_set d (fst w) (snd w)) writes d.

(** What one entry of the auxiliary metadata contributes, in the words
    of the specification: bytes become the marker, a [dpi] pair becomes
    [ppi_x] and [ppi_y], a [jfif_density] pair becomes [jfif_density_x]
    and [jfif_density_y], any other tuple nothing, anything else itself
    under its own key. *)
Definition entry_writes (item : string * pyval) : list (string * pyval) :=
  let (key, value) := item in
  match value with
  | PBytes _ => [(key, PStr "bytestream")]
  | PTuple [x; y] =>
      if (key =? "dpi")%string then [("ppi_x", x); ("ppi_y", y)]
      else if (key =? "jfif_density")%string
           then [("jfif_density_x", x); ("jfif_density_y", y)]
           else []
  | PTuple _ => []
  | _ => [(key, value)]
  end.

(** What one entry of the auxiliary metadata contributes when the merge
    goes through: bytes the marker, a tuple under [dpi] its first two
    items as [ppi_x] and [ppi_y], a tuple under [jfif_density] its first
    two items as [jfif_density_x] and [jfif_density_y], a tuple under
    any other key nothing, anything else itself under its own key.  (On
    a tuple of fewer than two items under the two keys the merge raises:
    nothing is contributed.) *)
Definition item_writes (item : string * pyval) : list (string * pyval) :=
  let (key, value) := item in
  match value with
  | PBytes _ => [(key, PStr "bytestream")]
  | PTuple items =>
      if (key =? "dpi")%string then
        match items with
        | x :: y :: _ => [("ppi_x", x); ("ppi_y", y)]
        | _ => []
        end
      else if (key =? "jfif_density")%string then
        match items with
        | x :: y :: _ => [("jfif_density_x", x); ("jfif_density_y", y)]
        | _ => []
        end
      else []
  | _ => [(key, value)]
  end.

(** The properties read off the decoded image, in the order assigned. *)
Definition base_writes (im : Image) (bpc : Z) : list (string * pyval) :=
  [("format", PStr (format im));
   ("width", PInt (fst (size im)));
   ("height", PInt (snd (size im)));
   ("mode", PStr (mode im));
   ("components", PInt (Z.of_nat (List.length (getbands im))));
   ("bpc", PInt bpc)].

(** The format is JPEG and the quality estimator answered. *)
Definition quality_estimated (im : Image) : bool :=
  (format im =? "JPEG")%string
  && match computeJPEGQuality im with Ok _ => true | Raise _ => false end.

(** What the quality estimate assigns, and the message of its failure. *)
Definition quality_writes (im : Image) : list (string * pyval) :=
  if (format im =? "JPEG")%string then
    match computeJPEGQuality im with
    | Ok (quality, _, nse) => [("JPEGQuality", quality); ("NSE_JPEGQuality", nse)]
    | Raise _ => []
    end
  else [].

Definition quality_failures (im : Image) : list string :=
  if (format im =? "JPEG")%string then
    match computeJPEGQuality im with
    | Ok _ => []
    | Raise e => [str_exn e]
    end
  else [].

(** The outcome of reading the ICC profile: the profile name and the
    description as far as they were obtained, and the exception that
    ended the attempt, if any. *)
Definition icc_outcome (im : Image) : list (string * pyval) * list string :=
  match dict_getitem (info im) "icc_profile" with
  | Raise e => ([], [str_exn e])
  | Ok icc =>
      match ImageCmsProfile icc with
      | Raise e => ([], [str_exn e])
      | Ok iccProfile =>
          match getProfileName iccProfile, getProfileDescription iccProfile with
          | Raise e, _ => ([], [str_exn e])
          | Ok name, Raise e =>
              ([("icc_profile_name", PStr (str_strip name))], [str_exn e])
          | Ok name, Ok description =>
              ([("icc_profile_name", PStr (str_strip name));
                ("icc_profile_description", PStr (str_strip description))], [])
          end
      end
  end.

Definition icc_writes (im : Image) : list (string * pyval) := fst (icc_outcome im).
Definition icc_failures (im : Image) : list string := snd (icc_outcome im).


(** Every character of a string passes a test. *)
Fixpoint all_chars (p : ascii -> bool) (s : string) : bool :=
  match s with
  | EmptyString => true
  | String c r => p c && all_chars p r
  end.

(** A decimal digit or the minus sign. *)
Definition numeral_char (c : ascii) : bool :=
  let n := nat_of_ascii c in
  ((48 <=? n) && (n <=? 57) || (n =? 45))%nat.

(** The page elements of a run of pages numbered from [pageNo] on. *)
Fixpoint pages_extracted (doc : Document) (pageNo : Z) (pages : list Page)
         (pageElts : list Element) : Prop :=
  match pages, pageElts with
  | [], [] => True
  | page :: pages', pageElt :: pageElts' =>
      getPageProperties doc page pageNo = Ok pageElt
      /\ pages_extracted doc (pageNo + 1) pages' pageElts'
  | _, _ => False
  end.

(** The report of a document that opened and needed no password. *)
Definition full_report (PDF : string) (fileSize : Z) (doc : Document)
           (pageElts : list Element) : Element :=
  Elt "properties" [] None
    [Elt "filePath" [] (Some PDF) [];
     Elt "fileSize" [] (Some (str_int fileSize)) [];
     Elt "openPassword" [] (Some "False") [];
     Elt "meta" [] None (map item_elt (metadata doc));
     Elt "PageMode" [] (Some (if (fst (xref_get_key doc (pdf_catalog doc) "PageMode") =? "null")%string
                              then "undefined"
                              else snd (xref_get_key doc (pdf_catalog doc) "PageMode"))) [];
     Elt "signatureFlag" [] (Some (str_int (get_sigflags doc))) [];
     Elt "noPages" [] (Some (str_int (page_count doc))) [];
     Elt "pages" [] None pageElts;
     exceptions_elt []].




(** ** Sample inputs

    Concrete library answers on which the statements are run: four
    image streams, an ICC parser, a quality estimator and five files. *)

Definition sample_repr (v : pyval) : string :=
  match v with PBytes _ => "b'...'" | _ => "(...)" end.

Definition sample_jpeg : Image :=
  {| format := "JPEG"; size := (100, 100); mode := "RGB";
     getbands := ["R"; "G"; "B"];
     info := [("jfif", PInt 257); ("jfif_density", PTuple [PInt 300; PInt 300]);
              ("dpi", PTuple [PInt 300; PInt 300]);
              ("icc_profile", PBytes [Byte.x49]);
              ("exif", PBytes [Byte.x45])] |}.

(** A JPEG whose quantization tables the estimator rejects. *)
Definition sample_jpeg_noq : Image :=
  {| format := "JPEG"; size := (1, 1); mode := "L"; getbands := ["L"];
     info := [("jfif", PInt 257)] |}.

(** Grey with alpha, as a JPEG 2000 stream decodes. *)
Definition sample_alpha : Image :=
  {| format := "JPEG2000"; size := (64, 64); mode := "LA";
     getbands := ["L"; "A"]; info := [] |}.

(** A PNG with a text chunk whose keyword is JPEGQuality. *)
Definition sample_png : Image :=
  {| format := "PNG"; size := (8, 8); mode := "P"; getbands := ["P"];
     info := [("JPEGQuality", PStr "90"); ("gamma", PObj "0.45455")] |}.

Definition sample_PIL_open (stream : bytes) : result Image :=
  match stream with
  | [Byte.x01] => Ok sample_jpeg
  | [Byte.x02] => Ok sample_jpeg_noq
  | [Byte.x03] => Ok sample_alpha
  | [Byte.x04] => Ok sample_png
  | _ => Raise (Raised "cannot identify image file")
  end.

Definition sample_quality (im : Image) : result (pyval * pyval * pyval) :=
  if fst (size im) =? 1 then Raise (Raised "no quantization tables")
  else Ok (PObj "90.0", PObj "1.25", PObj "0.98").

Definition sample_cms (icc : pyval) : result CmsProfile :=
  match icc with
  | PBytes [Byte.x49] =>
      Ok {| getProfileName := Ok " sRGB ";
            getProfileDescription := Ok "sRGB IEC61966-2.1 " |}
  | _ => Raise (Raised "cannot open profile from string")
  end.

(** An image reference as pymupdf lists it:
    xref, smask, width, height, bpc, colorspace, alt. colorspace, name,
    filter. *)
Definition sample_ref (xref : Z) (name filter : string) : imageref :=
  [PInt xref; PInt 0; PInt 100; PInt 100; PInt 8; PStr "DeviceRGB"; PStr "";
   PStr name; PStr filter].

(** The tuple layout of the specification: no smask field. *)
Definition sample_ref8 : imageref :=
  [PInt 7; PInt 100; PInt 200; PInt 8; PStr "DeviceRGB"; PStr ""; PStr "Im1";
   PStr "DCTDecode"].

Definition sample_raw (xref : Z) : result bytes :=
  match xref with
  | 7 => Ok [Byte.x01]
  | 8 => Ok [Byte.x02]
  | 9 => Ok [Byte.xff]
  | 10 => Ok [Byte.x03]
  | 11 => Ok [Byte.x04]
  | _ => Raise (Raised "bad xref")
  end.

Definition sample_doc (rc : Z) (pages : list (list imageref)) : Document :=
  {| authenticate := fun _ => Ok rc;
     page_count := Z.of_nat (List.length pages);
     metadata := [("format", PStr "PDF 1.7"); ("title", PNone)];
     pdf_catalog := 1;
     xref_get_key := fun _ _ => ("null", "null");
     get_sigflags := -1;
     doc_pages := map (fun images => {| get_images := Ok images |}) pages;
     xref_stream_raw := sample_raw |}.

Definition sample_open (PDF : string) : result Document :=
  if (PDF =? "scan.pdf")%string then
    Ok (sample_doc 1 [[sample_ref 7 "Im1" "DCTDecode"; sample_ref 9 "Im2" "CCITTFaxDecode"];
                      [sample_ref 8 "Im3" "DCTDecode"]])
  else if (PDF =? "locked.pdf")%string then
    Ok (sample_doc 0 [[sample_ref 7 "Im1" "DCTDecode"]])
  else if (PDF =? "noxref.pdf")%string then
    Ok (sample_doc 1 [[sample_ref 7 "Im1" "DCTDecode"; sample_ref 12 "Im2" "DCTDecode"]])
  else if (PDF =? "alpha.pdf")%string then
    Ok (sample_doc 1 [[sample_ref 7 "Im1" "DCTDecode"]; [sample_ref 10 "Im2" "JPXDecode"]])
  else Raise (Raised "Failed to open file").

Definition sample_getsize (PDF : string) : result Z := Ok 4096.

(** The sample names are ASCII: [strip] is [str.strip] on them. *)
Definition sample_strip : string -> string := strip.

Definition sample_int_literal (s : string) : result Z :=
  Raise (ValueError ("invalid literal for int() with base 10: '" ++ s ++ "'")).

(** ** Proofs *)

(** Propositional steps are done without the library answers in the
    context that the goal does not mention. *)
Ltac prop_step :=
  try clear getsize; try clear pymupdf_open; try clear PIL_open;
  try clear computeJPEGQuality; try clear ImageCmsProfile; try clear repr;
  try clear str_strip; try clear int_literal;
  tauto.

(** ** Elements built from dictionaries *)

Lemma fold_append_items (d : pydict pyval) tag a t c :
  fold_left
    (fun elt (item : string * pyval) =>
       let (key, value) := item in
       let child := etree_Element key in
       let child := set_text child (str value) in
       append elt child)
    d (Elt tag a t c)
  = Elt tag a t (c ++ map item_elt d).
Proof.
  revert c. induction d as [|[k v] d IH]; intros c; simpl.
  - now rewrite app_nil_r.
  - rewrite IH, <- app_assoc. reflexivity.
Qed.

Lemma dictionaryToElt_children name (d : pydict pyval) :
  dictionaryToElt name d = Elt name [] None (map item_elt d).
Proof. unfold dictionaryToElt, etree_Element. apply fold_append_items. Qed.

(** ** getBPC *)

Lemma mode_to_bpp_values m v :
  dict_get mode_to_bpp m = Some v -> exists b, v = PInt b /\ 1 <= b <= 32.
Proof.
  unfold mode_to_bpp. cbn [dict_get].
  repeat (destruct (_ =? m)%string;
          [intros [= <-]; eexists; split; [reflexivity | lia] | ]).
  discriminate.
Qed.

(** For a mode of the table and at least one band, the result is the
    floor of bits per pixel over the number of bands. *)
Lemma getBPC_listed (im : Image) (bpp : Z) :
  dict_get mode_to_bpp (mode im) = Some (PInt bpp) ->
  getbands im <> [] ->
  getBPC im = Ok (bpp / Z.of_nat (List.length (getbands im))).
Proof.
  intros Hm Hb. unfold getBPC, dict_getitem. rewrite Hm. simpl.
  destruct (mode_to_bpp_values _ _ Hm) as (b & [= <-] & Hr).
  destruct (getbands im) as [|x l]; [congruence|].
  replace (Z.of_nat (List.length (x :: l)) =? 0) with false
    by (symmetry; apply Z.eqb_neq; simpl List.length; lia).
  cbn [negb andb is_int int_truediv]. f_equal.
  apply Z.quot_div_nonneg; simpl List.length; lia.
Qed.

(** For a mode of the table and no band, the result is -9999. *)
Lemma getBPC_no_bands (im : Image) :
  mode_listed im = true -> getbands im = [] -> getBPC im = Ok (-9999).
Proof.
  unfold mode_listed, getBPC, dict_getitem. intros Hm Hb.
  destruct (dict_get mode_to_bpp (mode im)); [|discriminate].
  rewrite Hb. reflexivity.
Qed.

Lemma getBPC_total (im : Image) :
  mode_listed im = true -> exists bpc, getBPC im = Ok bpc.
Proof.
  unfold mode_listed, getBPC, dict_getitem. intros Hm.
  destruct (dict_get mode_to_bpp (mode im)); [|discriminate]. simpl.
  destruct (_ && _); eauto.
Qed.

Lemma getBPC_unlisted (im : Image) :
  mode_listed im = false -> getBPC im = Raise (KeyError (mode im)).
Proof.
  unfold mode_listed, getBPC, dict_getitem. intros Hm.
  destruct (dict_get mode_to_bpp (mode im)); [discriminate|]. reflexivity.
Qed.

(** The KeyError of [getBPC] leaves [getImageStreamProperties] uncaught. *)
Lemma unlisted_mode_not_contained stream pageNo im :
  PIL_open stream = Ok im -> mode_listed im = false ->
  getImageStreamProperties stream pageNo = Raise (KeyError (mode im)).
Proof.
  intros Ho Hm. unfold getImageStreamProperties. rewrite Ho.
  rewrite (getBPC_unlisted im Hm). reflexivity.
Qed.

(** C2 (the code departs from it).  An image whose mode has no entry in
    the table does not get the value -9999: the subscript
    [mode_to_bpp[image.mode]] raises KeyError before the test that
    guards the -9999 branch is reached, and the stream extractor, which
    calls [getBPC] outside its try blocks, raises it in turn. *)
Theorem getBPC_unlisted_mode_raises (im : Image) :
  mode_listed im = false ->
  getBPC im = Raise (KeyError (mode im))
  /\ forall stream pageNo,
       PIL_open stream = Ok im ->
       getImageStreamProperties stream pageNo = Raise (KeyError (mode im)).
Proof.
  intros Hm. split.
  - now apply getBPC_unlisted.
  - intros stream pageNo Ho. now apply unlisted_mode_not_contained.
Qed.

(** ** The stream extractor on a stream that does not decode *)


(** ** The dictionary extractor *)

(** On fewer than nine fields the subscript [image[8]], or an earlier
    one, raises IndexError. *)
Lemma getImageDictProperties_short (image : imageref) (pageNo : Z) :
  (List.length image < 9)%nat ->
  getImageDictProperties image pageNo
  = Raise (IndexError "tuple index out of range").
Proof.
  intros Hlen.
  do 9 (destruct image as [|? image]; [reflexivity|]).
  cbn [List.length] in Hlen. lia.
Qed.


(** ** The orchestrator: early exits *)


(** When opening or the probe raises, the report is the file path, the
    file size and one file-level exception record. *)
Lemma open_failure_report PDF fileSize e :
  getsize PDF = Ok fileSize ->
  (doc <- pymupdf_open PDF ;; rc <- authenticate doc "whatever" ;; Ok (doc, rc))
  = Raise e ->
  getProperties PDF
  = Ok (Elt "properties" [] None
          [Elt "filePath" [] (Some PDF) [];
           Elt "fileSize" [] (Some (str_int fileSize)) [];
           exceptions_elt [str_exn e]]).
Proof.
  intros Hs Ho. unfold getProperties. rewrite Hs. simpl bind at 1.
  cbv zeta. rewrite Ho. reflexivity.
Qed.

(** ** Dictionary assignment *)

Lemma dict_get_set {V} (d : pydict V) k v k' :
  dict_get (dict_set d k v) k'
  = if (k =? k')%string then Some v else dict_get d k'.
Proof.
  induction d as [|[k0 v0] d IH]; simpl.
  - reflexivity.
  - destruct (String.eqb_spec k0 k) as [->|Hk]; simpl.
    + destruct (k =? k')%string; reflexivity.
    + rewrite IH. destruct (String.eqb_spec k0 k') as [->|Hk'].
      * destruct (String.eqb_spec k k'); congruence.
      * reflexivity.
Qed.

Lemma dict_keys_set {V} (d : pydict V) k v k' :
  In k' (dict_keys (dict_set d k v)) <-> k = k' \/ In k' (dict_keys d).
Proof.
  unfold dict_keys. induction d as [|[k0 v0] d IH]; simpl.
  - prop_step.
  - destruct (String.eqb_spec k0 k) as [->|Hk]; simpl.
    + prop_step.
    + rewrite IH. prop_step.
Qed.

Lemma dict_get_assign_all writes : forall d key,
  dict_get (assign_all d writes) key
  = match last_write key writes with
    | Some v => Some v
    | None => dict_get d key
    end.
Proof.
  induction writes as [|[k v] ws IH]; intros d key; simpl.
  - reflexivity.
  - unfold assign_all in *. simpl. rewrite IH.
    destruct (last_write key ws); [reflexivity|].
    rewrite dict_get_set. cbn [fst snd].
    destruct (k =? key)%string; reflexivity.
Qed.

Lemma dict_keys_assign_all writes : forall d key,
  In key (dict_keys (assign_all d writes))
  <-> In key (dict_keys d) \/ In key (map fst writes).
Proof.
  induction writes as [|[k v] ws IH]; intros d key; simpl.
  - prop_step.
  - unfold assign_all in *. simpl. rewrite IH, dict_keys_set. prop_step.
Qed.

Lemma dict_set_NoDup {V} (d : pydict V) k v :
  NoDup (dict_keys d) -> NoDup (dict_keys (dict_set d k v)).
Proof.
  unfold dict_keys. induction d as [|[k0 v0] d IH]; cbn [dict_set map fst].
  - intros _. constructor; [intros []|constructor].
  - intros H. inversion H as [|? ? Hnotin Hrest]; subst.
    destruct (String.eqb_spec k0 k) as [->|Hk]; cbn [map fst].
    + constructor; assumption.
    + constructor; [|now apply IH].
      intros Hin. apply (dict_keys_set d k v k0) in Hin as [Heq|Hin].
      * congruence.
      * contradiction.
Qed.

Lemma assign_all_NoDup writes : forall d,
  NoDup (dict_keys d) -> NoDup (dict_keys (assign_all d writes)).
Proof.
  induction writes as [|[k v] ws IH]; intros d H; [exact H|].
  unfold assign_all in *. cbn [fold_left fst snd].
  apply IH. now apply dict_set_NoDup.
Qed.

(** ** Merging the decoder's auxiliary metadata *)

Lemma merge_item_writes d item :
  pair_entry item = true ->
  merge_item d item = Ok (assign_all d (entry_writes item)).
Proof.
  destruct item as [key value]. unfold pair_entry, merge_item, entry_writes.
  cbn [fst snd].
  destruct value as [| ? | ? | ? | ? | ? | items];
    cbn [is_bytes is_tuple]; rewrite ?andb_false_r; try reflexivity.
  destruct (key =? "dpi")%string; cbn [orb andb].
  - intros Hlen. destruct items as [|x [|y [|z r]]]; try discriminate. reflexivity.
  - destruct (key =? "jfif_density")%string; cbn [orb andb].
    + intros Hlen. destruct items as [|x [|y [|z r]]]; try discriminate.
      reflexivity.
    + intros _. destruct items as [|x [|y [|z r]]]; reflexivity.
Qed.

Lemma merge_info_writes items : forall d,
  forallb pair_entry items = true ->
  merge_info d items = Ok (assign_all d (flat_map entry_writes items)).
Proof.
  induction items as [|item items IH]; intros d H; simpl in *.
  - reflexivity.
  - apply andb_true_iff in H as [Hi Hr].
    rewrite (merge_item_writes d item Hi). simpl.
    rewrite (IH _ Hr). unfold assign_all. now rewrite fold_left_app.
Qed.

(** ** The stream extractor on a decoded image *)

Lemma SubElement_text_exceptions msgs msg :
  SubElement_text (exceptions_elt msgs) "exception" msg
  = exceptions_elt (msgs ++ [msg]).
Proof.
  unfold SubElement_text, exceptions_elt, append. now rewrite map_app.
Qed.

Lemma quality_step_writes im d msgs :
  quality_step im d (exceptions_elt msgs)
  = (assign_all d (quality_writes im),
     exceptions_elt (msgs ++ quality_failures im)).
Proof.
  unfold quality_step, quality_writes, quality_failures.
  destruct (format im =? "JPEG")%string.
  - destruct (computeJPEGQuality im) as [[[q r] n]|e].
    + now rewrite app_nil_r.
    + now rewrite SubElement_text_exceptions.
  - now rewrite app_nil_r.
Qed.

Lemma icc_step_writes im d msgs :
  icc_step im d (exceptions_elt msgs)
  = (assign_all d (icc_writes im),
     exceptions_elt (msgs ++ icc_failures im)).
Proof.
  unfold icc_step, icc_writes, icc_failures, icc_outcome.
  destruct (dict_getitem (info im) "icc_profile") as [icc|e];
    [|now rewrite SubElement_text_exceptions].
  destruct (ImageCmsProfile icc) as [p|e];
    [|now rewrite SubElement_text_exceptions].
  destruct (getProfileName p) as [name|e];
    [|destruct (getProfileDescription p); now rewrite SubElement_text_exceptions].
  destruct (getProfileDescription p) as [desc|e].
  - now rewrite app_nil_r.
  - now rewrite SubElement_text_exceptions.
Qed.

Lemma assign_all_app d ws1 ws2 :
  assign_all d (ws1 ++ ws2) = assign_all (assign_all d ws1) ws2.
Proof. unfold assign_all. apply fold_left_app. Qed.

(** [getImageStreamProperties] with its two try blocks resolved. *)
Lemma getImageStreamProperties_steps stream pageNo :
  getImageStreamProperties stream pageNo
  = match PIL_open stream with
    | Raise e => Ok (stream_node [] [str_exn e])
    | Ok im =>
        bpc <- getBPC im ;;
        merged <- merge_info (assign_all [] (base_writes im bpc ++ quality_writes im))
                             (info im) ;;
        Ok (stream_node (assign_all merged (icc_writes im))
                        (quality_failures im ++ icc_failures im))
    end.
Proof.
  unfold getImageStreamProperties.
  destruct (PIL_open stream) as [im|e]; [|reflexivity].
  destruct (getBPC im) as [bpc|e]; [|reflexivity]. cbn [bind].
  change (etree_Element "exceptions") with (exceptions_elt []).
  rewrite quality_step_writes, assign_all_app.
  destruct (merge_info _ (info im)) as [merged|e]; [|reflexivity]. cbn [bind].
  rewrite icc_step_writes, dictionaryToElt_children. reflexivity.
Qed.


Lemma merge_item_returns d item d' :
  merge_item d item = Ok d' -> d' = assign_all d (item_writes item).
Proof.
  destruct item as [key value]. unfold merge_item, item_writes.
  destruct value as [| ? | ? | ? | ? | ? | items];
    cbn [is_bytes is_tuple]; rewrite ?andb_false_r;
    try (intros [= <-]; reflexivity).
  destruct (key =? "dpi")%string; cbn [andb].
  - destruct items as [|x [|y r]]; cbn [subscript index nth_error bind];
      intros [= <-] || discriminate. reflexivity.
  - destruct (key =? "jfif_density")%string; cbn [andb].
    + destruct items as [|x [|y r]]; cbn [subscript index nth_error bind];
        intros [= <-] || discriminate. reflexivity.
    + intros [= <-]. reflexivity.
Qed.

Lemma merge_info_returns items : forall d d',
  merge_info d items = Ok d' ->
  d' = assign_all d (flat_map item_writes items).
Proof.
  induction items as [|item items IH]; intros d d'; cbn [merge_info flat_map].
  - intros [= <-]. reflexivity.
  - destruct (merge_item d item) as [d1|e] eqn:Hi; cbn [bind]; [|discriminate].
    intros H. rewrite (IH _ _ H), (merge_item_returns _ _ _ Hi).
    symmetry. apply assign_all_app.
Qed.

(** What [getImageStreamProperties] returns on a stream that decodes:
    the dictionary after every assignment, first to last, and the
    failures caught. *)
Lemma getImageStreamProperties_returned stream pageNo im node :
  PIL_open stream = Ok im ->
  getImageStreamProperties stream pageNo = Ok node ->
  exists bpc,
    getBPC im = Ok bpc
    /\ node = stream_node
               (assign_all [] (base_writes im bpc ++ quality_writes im
                                 ++ flat_map item_writes (info im)
                                 ++ icc_writes im))
               (quality_failures im ++ icc_failures im).
Proof.
  intros Ho. rewrite getImageStreamProperties_steps, Ho.
  destruct (getBPC im) as [bpc|e]; cbn [bind]; [|discriminate].
  destruct (merge_info _ (info im)) as [merged|e] eqn:Hm; cbn [bind]; [|discriminate].
  intros [= <-]. exists bpc. split; [reflexivity|].
  rewrite (merge_info_returns _ _ _ Hm), !assign_all_app. reflexivity.
Qed.

(** The keys an entry contributes, for a key that is none of the four
    the density tuples are split into. *)
Lemma item_writes_key item key :
  key = "JPEGQuality" \/ key = "NSE_JPEGQuality" ->
  In key (map fst (item_writes item))
  <-> fst item = key /\ is_tuple (snd item) = false.
Proof.
  intros Hk. destruct item as [k v]. unfold item_writes. cbn [fst snd].
  assert (Hsplit : forall a b (x y : pyval),
             a = "ppi_x" \/ a = "jfif_density_x" ->
             b = "ppi_y" \/ b = "jfif_density_y" ->
             ~ In key (map fst [(a, x); (b, y)])).
  { intros a b x y Ha Hb [H|[H|[]]]; cbn [fst] in H; subst key;
      destruct Ha, Hb, Hk; subst; discriminate. }
  destruct v as [| ? | ? | ? | ? | ? | items]; cbn [is_tuple map fst In];
    try (split; [intros [H|[]]; auto | intros [H _]; auto]).
  split; [|intros [_ H]; discriminate H].
  intros H. exfalso.
  destruct (k =? "dpi")%string.
  - destruct items as [|x [|y r]]; try contradiction.
    revert H. apply Hsplit; auto.
  - destruct (k =? "jfif_density")%string; [|contradiction].
    destruct items as [|x [|y r]]; try contradiction.
    revert H. apply Hsplit; auto.
Qed.

Lemma item_writes_keys items key :
  key = "JPEGQuality" \/ key = "NSE_JPEGQuality" ->
  In key (map fst (flat_map item_writes items))
  <-> exists value, In (key, value) items /\ is_tuple value = false.
Proof.
  intros Hk. rewrite in_map_iff. split.
  - intros ([k v] & Hfst & Hin). cbn [fst] in Hfst. subst k.
    apply in_flat_map in Hin as (item & Hitem & Hw).
    assert (Hkey : In key (map fst (item_writes item)))
      by (apply in_map_iff; exists (key, v); auto).
    apply (item_writes_key item key Hk) in Hkey as [Hf Ht].
    destruct item as [k' v']. cbn [fst snd] in Hf, Ht. subst k'.
    exists v'. auto.
  - intros (value & Hin & Ht).
    assert (Hkey : In key (map fst (item_writes (key, value))))
      by (apply (item_writes_key (key, value) key Hk); auto).
    apply in_map_iff in Hkey as (w & Hfst & Hw).
    exists w. split; [exact Hfst|].
    apply in_flat_map. exists (key, value). auto.
Qed.

Lemma has_child_stream_node props msgs key :
  has_child (stream_node props msgs) key = true
  <-> In key (dict_keys props) \/ key = "exceptions".
Proof.
  unfold has_child, stream_node, dict_keys. cbn [children_of].
  rewrite existsb_app, orb_true_iff, existsb_exists. cbn [existsb tag_of exceptions_elt].
  rewrite orb_false_r, String.eqb_eq, in_map_iff. split.
  - intros [(c & Hc & Ht)|H]; [left|right; congruence].
    apply in_map_iff in Hc as (item & <- & Hi).
    apply String.eqb_eq in Ht. exists item. split; [exact Ht|exact Hi].
  - intros [(item & Hk & Hi)|H]; [left|right; congruence].
    exists (item_elt item). split; [now apply in_map|].
    apply String.eqb_eq. exact Hk.
Qed.

Lemma quality_writes_keys im key :
  key = "JPEGQuality" \/ key = "NSE_JPEGQuality" ->
  In key (map fst (quality_writes im)) <-> quality_estimated im = true.
Proof.
  intros Hk. unfold quality_writes, quality_estimated.
  destruct (format im =? "JPEG")%string; cbn [andb].
  - destruct (computeJPEGQuality im) as [[[q r] n]|e]; cbn [map fst In].
    + split; [reflexivity|]. intros _. destruct Hk as [->| ->]; auto.
    + split; [intros []|discriminate].
  - cbn [map In]. split; [intros []|discriminate].
Qed.

Lemma icc_writes_keys im key :
  In key (map fst (icc_writes im)) ->
  key = "icc_profile_name" \/ key = "icc_profile_description".
Proof.
  unfold icc_writes, icc_outcome.
  destruct (dict_getitem (info im) "icc_profile") as [icc|e]; [|intros []].
  destruct (ImageCmsProfile icc) as [p|e]; [|intros []].
  destruct (getProfileName p), (getProfileDescription p); cbn [fst map In];
    intros H; repeat destruct H as [H|H]; subst; auto; contradiction.
Qed.

(** C7 (as amended).  In the stream node returned for an image that
    decoded, every key holds the last value assigned to it in this
    order: the computed properties, the quality estimate, then entry by
    entry of the auxiliary metadata what [item_writes] says (bytes as
    the marker bytestream, a tuple under [dpi] as [ppi_x] and [ppi_y]
    from its first two items, a tuple under [jfif_density] as
    [jfif_density_x] and [jfif_density_y] from its first two items, a
    tuple under another key nothing, anything else itself under its own
    key), then the ICC names.  No key has two children. *)
Theorem auxiliary_metadata_merge stream pageNo im node :
  PIL_open stream = Ok im ->
  getImageStreamProperties stream pageNo = Ok node ->
  exists bpc props msgs,
    getBPC im = Ok bpc
    /\ node = stream_node props msgs
    /\ NoDup (dict_keys props)
    /\ forall key,
        dict_get props key
        = last_write key
            (base_writes im bpc ++ quality_writes im
               ++ flat_map item_writes (info im) ++ icc_writes im).
Proof.
  intros Ho Hn.
  destruct (getImageStreamProperties_returned _ _ _ _ Ho Hn) as (bpc & Hb & ->).
  exists bpc. eexists _, _. split; [exact Hb|]. split; [reflexivity|]. split.
  - apply assign_all_NoDup. constructor.
  - intros key. rewrite dict_get_assign_all.
    destruct (last_write key _); reflexivity.
Qed.

(** C6 (as amended).  In the stream node returned for an image that
    decoded, each of the children [JPEGQuality] and [NSE_JPEGQuality] is
    present exactly when the format is JPEG and the estimator answered,
    or the auxiliary metadata itself has an entry under that key whose
    value is no tuple.  When the format is JPEG and the estimator
    raised, its message is the first record of the exception container
    and the node holds the computed properties, the merged metadata and
    the ICC names all the same. *)
Theorem jpeg_quality_fields stream pageNo im node :
  PIL_open stream = Ok im ->
  getImageStreamProperties stream pageNo = Ok node ->
  (forall key,
      key = "JPEGQuality" \/ key = "NSE_JPEGQuality" ->
      (has_child node key = true
       <-> quality_estimated im = true
           \/ exists value, In (key, value) (info im) /\ is_tuple value = false))
  /\ (forall e,
        format im = "JPEG" -> computeJPEGQuality im = Raise e ->
        exists bpc props,
          getBPC im = Ok bpc
          /\ node = stream_node props (str_exn e :: icc_failures im)
          /\ props = assign_all [] (base_writes im bpc
                                      ++ flat_map item_writes (info im)
                                      ++ icc_writes im)).
Proof.
  intros Ho Hn.
  destruct (getImageStreamProperties_returned _ _ _ _ Ho Hn) as (bpc & Hb & ->).
  split.
  - intros key Hk. rewrite has_child_stream_node, dict_keys_assign_all.
    rewrite !map_app, !in_app_iff.
    rewrite (quality_writes_keys im key Hk), (item_writes_keys (info im) key Hk).
    pose proof (icc_writes_keys im key) as Hicc.
    cbn [dict_keys base_writes map fst In].
    split.
    + intros [[[]|[H|[H|[H|H]]]]|H]; try prop_step.
      * destruct Hk; subst key; repeat destruct H as [H|H]; try discriminate H; prop_step.
      * specialize (Hicc H). destruct Hk, Hicc; subst key; discriminate.
      * destruct Hk; subst key; discriminate.
    + prop_step.
  - intros e Hf He. exists bpc. eexists. split; [exact Hb|].
    unfold quality_failures, quality_writes.
    rewrite Hf, String.eqb_refl, He. split; reflexivity.
Qed.

(** ** Printing an int and reading it back *)

Lemma uint_chars d :
  all_chars numeral_char (NilEmpty.string_of_uint d) = true.
Proof. induction d; simpl; auto. Qed.

Lemma str_int_chars z : all_chars numeral_char (str_int z) = true.
Proof.
  unfold str_int. destruct z as [|p|p]; cbn [Z.to_int NilZero.string_of_int].
  - reflexivity.
  - unfold NilZero.string_of_uint. destruct (Pos.to_uint p) eqn:E;
      try reflexivity; rewrite <- E; apply uint_chars.
  - cbn [all_chars]. unfold NilZero.string_of_uint.
    destruct (Pos.to_uint p) eqn:E; try reflexivity; rewrite <- E;
      apply uint_chars.
Qed.

Lemma numeral_char_not_space c : numeral_char c = true -> is_space c = false.
Proof.
  unfold numeral_char, is_space. generalize (nat_of_ascii c). intros n H.
  apply orb_true_iff in H as [H|H].
  - apply andb_true_iff in H as [H1 H2].
    apply Nat.leb_le in H1. apply Nat.leb_le in H2.
    apply orb_false_iff. split; apply andb_false_iff.
    + right. apply Nat.leb_gt. lia.
    + right. apply Nat.leb_gt. lia.
  - apply Nat.eqb_eq in H. subst n. reflexivity.
Qed.

Lemma lstrip_numeral s : all_chars numeral_char s = true -> lstrip s = s.
Proof.
  destruct s as [|c r]; [reflexivity|]. cbn [all_chars lstrip]. intros H.
  apply andb_true_iff in H as [H _].
  now rewrite (numeral_char_not_space c H).
Qed.

Lemma rstrip_numeral s : all_chars numeral_char s = true -> rstrip s = s.
Proof.
  induction s as [|c r IH]; [reflexivity|]. cbn [all_chars rstrip]. intros H.
  apply andb_true_iff in H as [Hc Hr].
  rewrite (IH Hr), (numeral_char_not_space c Hc). reflexivity.
Qed.

Lemma int_of_str_str_int z : int_of_str (str_int z) = Ok z.
Proof.
  unfold int_of_str, strip.
  rewrite (lstrip_numeral _ (str_int_chars z)),
          (rstrip_numeral _ (str_int_chars z)).
  assert (Hp : NilZero.int_of_string (str_int z) = Some (Z.to_int z)).
  { unfold str_int. apply NilZero.isi.
    - destruct z; cbn [Z.to_int]; try discriminate.
      intros [= H]. now apply DecimalPos.Unsigned.to_uint_nonnil in H.
    - destruct z; cbn [Z.to_int]; try discriminate.
      intros [= H]. now apply DecimalPos.Unsigned.to_uint_nonnil in H. }
  pose proof (str_int_chars z) as Hc.
  destruct (str_int z) as [|c r] eqn:E; [discriminate Hp|].
  cbn [all_chars] in Hc. apply andb_true_iff in Hc as [Hc _].
  destruct (Ascii.eqb_spec c "+") as [->|_]; [discriminate Hc|].
  rewrite Hp, DecimalZ.of_to. reflexivity.
Qed.

(** ** The loops over images and pages *)

Lemma images_loop_inv doc pageNo images : forall t a x c r,
  images_loop doc images pageNo (Elt t a x c) = Ok r ->
  exists imageElts,
    r = Elt t a x (c ++ imageElts)
    /\ Forall2 (fun image imageElt =>
                  getImageProperties doc image pageNo = Ok imageElt)
               images imageElts.
Proof.
  induction images as [|image images IH]; intros t a x c r; cbn [images_loop].
  - intros [= <-]. exists []. now rewrite app_nil_r.
  - destruct (getImageProperties doc image pageNo) as [imageElt|e] eqn:E;
      cbn [bind append]; [|discriminate].
    intros H. apply IH in H as (elts & -> & HF).
    exists (imageElt :: elts). rewrite <- app_assoc. split; [reflexivity|].
    now constructor.
Qed.

Lemma images_loop_intro doc pageNo images imageElts :
  Forall2 (fun image imageElt =>
             getImageProperties doc image pageNo = Ok imageElt)
          images imageElts ->
  forall t a x c,
    images_loop doc images pageNo (Elt t a x c) = Ok (Elt t a x (c ++ imageElts)).
Proof.
  induction 1 as [|image imageElt images elts H _ IH]; intros t a x c;
    cbn [images_loop].
  - now rewrite app_nil_r.
  - rewrite H. cbn [bind append]. rewrite IH, <- app_assoc. reflexivity.
Qed.

Lemma getPageProperties_inv doc page pageNo pageElt :
  getPageProperties doc page pageNo = Ok pageElt ->
  exists images imageElts,
    get_images page = Ok images
    /\ pageElt = Elt "page" [("number", str_int pageNo)] None imageElts
    /\ Forall2 (fun image imageElt =>
                  getImageProperties doc image pageNo = Ok imageElt)
               images imageElts.
Proof.
  unfold getPageProperties.
  destruct (get_images page) as [images|e]; cbn [bind]; [|discriminate].
  intros H. apply images_loop_inv in H as (elts & -> & HF).
  exists images, elts. auto.
Qed.

Lemma getPageProperties_intro doc page pageNo images imageElts :
  get_images page = Ok images ->
  Forall2 (fun image imageElt =>
             getImageProperties doc image pageNo = Ok imageElt)
          images imageElts ->
  getPageProperties doc page pageNo
  = Ok (Elt "page" [("number", str_int pageNo)] None imageElts).
Proof.
  intros Hg HF. unfold getPageProperties. rewrite Hg. cbn [bind].
  apply (images_loop_intro _ _ _ _ HF "page" [("number", str_int pageNo)] None []).
Qed.

Lemma pages_loop_inv doc pages : forall pageNo t a x c r,
  pages_loop doc pages pageNo (Elt t a x c) = Ok r ->
  exists pageElts,
    r = Elt t a x (c ++ pageElts)
    /\ pages_extracted doc pageNo pages pageElts.
Proof.
  induction pages as [|page pages IH]; intros pageNo t a x c r;
    cbn [pages_loop].
  - intros [= <-]. exists []. now rewrite app_nil_r.
  - destruct (getPageProperties doc page pageNo) as [pageElt|e] eqn:E;
      cbn [bind append]; [|discriminate].
    intros H. apply IH in H as (elts & -> & HP).
    exists (pageElt :: elts). rewrite <- app_assoc. split; [reflexivity|].
    cbn [pages_extracted]. auto.
Qed.

Lemma pages_loop_intro doc pages : forall pageNo pageElts t a x c,
  pages_extracted doc pageNo pages pageElts ->
  pages_loop doc pages pageNo (Elt t a x c) = Ok (Elt t a x (c ++ pageElts)).
Proof.
  induction pages as [|page pages IH]; intros pageNo [|pageElt elts] t a x c;
    cbn [pages_extracted pages_loop]; try contradiction.
  - intros _. now rewrite app_nil_r.
  - intros [H HP]. rewrite H. cbn [bind append].
    rewrite (IH _ _ _ _ _ _ HP), <- app_assoc. reflexivity.
Qed.

Lemma pages_extracted_nth doc pages : forall pageNo pageElts,
  pages_extracted doc pageNo pages pageElts ->
  List.length pageElts = List.length pages
  /\ forall i page,
      nth_error pages i = Some page ->
      exists pageElt,
        nth_error pageElts i = Some pageElt
        /\ getPageProperties doc page (pageNo + Z.of_nat i) = Ok pageElt.
Proof.
  induction pages as [|page pages IH]; intros pageNo [|pageElt elts];
    cbn [pages_extracted]; try contradiction.
  - intros _. split; [reflexivity|]. intros [|i] page; discriminate.
  - intros [H HP]. destruct (IH _ _ HP) as [Hlen Hnth]. split.
    + cbn [List.length]. now rewrite Hlen.
    + intros [|i] p; cbn [nth_error].
      * intros [= <-]. exists pageElt. rewrite Z.add_0_r. auto.
      * intros Hi. destruct (Hnth i p Hi) as (elt & He & Hg).
        exists elt. split; [exact He|].
        replace (pageNo + Z.of_nat (S i)) with (pageNo + 1 + Z.of_nat i) by lia.
        exact Hg.
Qed.

(** ** The orchestrator on a document that needs no password *)

Lemma getProperties_open PDF fileSize doc rc :
  getsize PDF = Ok fileSize ->
  pymupdf_open PDF = Ok doc ->
  authenticate doc "whatever" = Ok rc ->
  rc <> 0 ->
  getProperties PDF
  = (pagesElt <- pages_loop doc (doc_pages doc) 1 (Elt "pages" [] None []) ;;
     Ok (full_report PDF fileSize doc (children_of pagesElt))).
Proof.
  intros Hs Ho Ha Hrc. unfold getProperties. rewrite Hs. cbn [bind].
  rewrite Ho. cbn [bind]. rewrite Ha. cbn [bind].
  apply Z.eqb_neq in Hrc. rewrite Hrc.
  change (etree_Element "pages") with (Elt "pages" [] None []).
  destruct (pages_loop doc (doc_pages doc) 1 (Elt "pages" [] None [])) as [r|e] eqn:E;
    cbn [bind]; [|reflexivity].
  apply pages_loop_inv in E as (elts & -> & _).
  rewrite dictionaryToElt_children. unfold full_report. cbn [children_of app].
  destruct (fst (xref_get_key doc (pdf_catalog doc) "PageMode") =? "null")%string;
    reflexivity.
Qed.

Lemma getProperties_report PDF fileSize doc rc report :
  getsize PDF = Ok fileSize ->
  pymupdf_open PDF = Ok doc ->
  authenticate doc "whatever" = Ok rc ->
  rc <> 0 ->
  getProperties PDF = Ok report ->
  exists pageElts,
    report = full_report PDF fileSize doc pageElts
    /\ pages_extracted doc 1 (doc_pages doc) pageElts.
Proof.
  intros Hs Ho Ha Hrc. rewrite (getProperties_open _ _ _ _ Hs Ho Ha Hrc).
  destruct (pages_loop doc (doc_pages doc) 1 (Elt "pages" [] None [])) as [r|e] eqn:E;
    cbn [bind]; [|discriminate].
  intros [= <-]. apply pages_loop_inv in E as (elts & -> & HP).
  exists elts. cbn [children_of app]. auto.
Qed.

(** ** The image extractor *)

Lemma getImageProperties_inv doc image pageNo imageElt :
  getImageProperties doc image pageNo = Ok imageElt ->
  exists dictElt xref stream streamElt,
    getImageDictProperties image pageNo = Ok dictElt
    /\ int_of_child_text dictElt "xref" = Ok xref
    /\ xref_stream_raw doc xref = Ok stream
    /\ getImageStreamProperties stream pageNo = Ok streamElt
    /\ imageElt = Elt "image" [] None [dictElt; streamElt].
Proof.
  unfold getImageProperties.
  destruct (getImageDictProperties image pageNo) as [d|e] eqn:Hd;
    cbn [bind]; [|discriminate].
  destruct (int_of_child_text d "xref") as [xref|e] eqn:Hx;
    cbn [bind]; [|discriminate].
  destruct (xref_stream_raw doc xref) as [stream|e] eqn:Hr;
    cbn [bind]; [|discriminate].
  destruct (getImageStreamProperties stream pageNo) as [s|e] eqn:Hs;
    cbn [bind]; [|discriminate].
  intros [= <-]. exists d, xref, stream, s. repeat split; assumption.
Qed.







Lemma getProperties_getsize PDF report :
  getProperties PDF = Ok report -> exists fileSize, getsize PDF = Ok fileSize.
Proof.
  unfold getProperties. destruct (getsize PDF) as [n|e]; [eauto|discriminate].
Qed.

Lemma str_int_negative z : z < 0 -> str_int z = String "-" (str_int (- z)).
Proof.
  destruct z as [|p|p]; try lia. intros _. unfold str_int.
  cbn [Z.opp Z.to_int NilZero.string_of_int]. reflexivity.
Qed.

(** ** The claims on the whole report *)



(** C9.  In the report of a document that opened and needed no password
    (the reader's page count being the number of pages it yields), the
    [noPages] text is the number of page elements; the i-th page element
    is that of the i-th page yielded and carries the number i, counted
    from 1; its children are the image elements of the references listed
    for the page, one each, in the order listed. *)
Theorem pages_and_images_in_order PDF doc rc report :
  pymupdf_open PDF = Ok doc ->
  authenticate doc "whatever" = Ok rc ->
  rc <> 0 ->
  page_count doc = Z.of_nat (List.length (doc_pages doc)) ->
  getProperties PDF = Ok report ->
  exists pageElts,
    find report "pages" = Some (Elt "pages" [] None pageElts)
    /\ find report "noPages"
       = Some (Elt "noPages" [] (Some (str_int (Z.of_nat (List.length pageElts)))) [])
    /\ List.length pageElts = List.length (doc_pages doc)
    /\ forall i page,
        nth_error (doc_pages doc) i = Some page ->
        exists images imageElts,
          get_images page = Ok images
          /\ nth_error pageElts i
             = Some (Elt "page" [("number", str_int (Z.of_nat i + 1))] None imageElts)
          /\ Forall2 (fun image imageElt =>
                        exists dictElt streamElt,
                          getImageDictProperties image (Z.of_nat i + 1) = Ok dictElt
                          /\ imageElt = Elt "image" [] None [dictElt; streamElt])
                     images imageElts.
Proof.
  intros Ho Ha Hrc Hcount Hg.
  destruct (getProperties_getsize _ _ Hg) as [fileSize Hs].
  destruct (getProperties_report _ _ _ _ _ Hs Ho Ha Hrc Hg) as (pageElts & -> & HP).
  destruct (pages_extracted_nth _ _ _ _ HP) as [Hlen Hall].
  exists pageElts. split; [reflexivity|]. split.
  - unfold full_report. rewrite Hcount, Hlen. reflexivity.
  - split; [exact Hlen|]. intros i page Hnth.
    destruct (Hall i page Hnth) as (pageElt & Hel & Hpage).
    replace (1 + Z.of_nat i) with (Z.of_nat i + 1) in Hpage by lia.
    apply getPageProperties_inv in Hpage as (images & elts & Hi & -> & HF).
    exists images, elts. split; [exact Hi|]. split; [exact Hel|].
    eapply Forall2_impl; [|exact HF]. intros image elt He.
    apply getImageProperties_inv in He as (d & xref & stream & s & Hd & _ & _ & _ & ->).
    exists d, s. auto.
Qed.

(** C10.  In the report of a document that opened and needed no
    password there is exactly one [signatureFlag] child; its text is the
    decimal print of the integer [get_sigflags] answered: read back as
    an int it is that integer, and for a negative one it is a minus sign
    followed by the print of its absolute value. *)
Theorem signature_flag_rendered PDF doc rc report :
  pymupdf_open PDF = Ok doc ->
  authenticate doc "whatever" = Ok rc ->
  rc <> 0 ->
  getProperties PDF = Ok report ->
  filter (fun child => (tag_of child =? "signatureFlag")%string) (children_of report)
  = [Elt "signatureFlag" [] (Some (str_int (get_sigflags doc))) []]
  /\ int_of_str (str_int (get_sigflags doc)) = Ok (get_sigflags doc)
  /\ (get_sigflags doc < 0 ->
      str_int (get_sigflags doc) = String "-" (str_int (- get_sigflags doc))).
Proof.
  intros Ho Ha Hrc Hg.
  destruct (getProperties_getsize _ _ Hg) as [fileSize Hs].
  destruct (getProperties_report _ _ _ _ _ Hs Ho Ha Hrc Hg) as (pageElts & -> & _).
  split; [reflexivity|]. split.
  - apply int_of_str_str_int.
  - apply str_int_negative.
Qed.

(** ** Further properties of the module *)

Lemma find_item_elt (d : pydict pyval) key :
  List.find (fun c => (tag_of c =? key)%string) (map item_elt d)
  = option_map (fun value => Elt key [] (Some (str value)) []) (dict_get d key).
Proof.
  induction d as [|[k v] d IH]; cbn [map List.find dict_get item_elt tag_of fst snd].
  - reflexivity.
  - destruct (String.eqb_spec k key) as [->|_]; [reflexivity|exact IH].
Qed.

(** X3.  [getBPC] returns exactly for the modes of its table.  What it
    returns is -9999 when the image has no band, and otherwise the
    floor of the table's bits per pixel over the number of bands, a
    number from 0 to 32. *)
Theorem getBPC_result (im : Image) :
  (mode_listed im = true <-> exists bpc, getBPC im = Ok bpc)
  /\ forall bpc,
      getBPC im = Ok bpc ->
      (getbands im = [] /\ bpc = -9999)
      \/ (getbands im <> []
          /\ 0 <= bpc <= 32
          /\ exists bpp,
              dict_get mode_to_bpp (mode im) = Some (PInt bpp)
              /\ bpc = bpp / Z.of_nat (List.length (getbands im))).
Proof.
  split.
  - split; [apply getBPC_total|].
    intros [bpc H]. destruct (mode_listed im) eqn:Hm; [reflexivity|].
    rewrite (getBPC_unlisted im Hm) in H. discriminate.
  - intros bpc H.
    destruct (mode_listed im) eqn:Hm;
      [|rewrite (getBPC_unlisted im Hm) in H; discriminate].
    destruct (getbands im) as [|b bs] eqn:Hb.
    + left. rewrite (getBPC_no_bands im Hm Hb) in H. injection H as <-. auto.
    + right. unfold mode_listed in Hm.
      destruct (dict_get mode_to_bpp (mode im)) as [v|] eqn:Hv; [|discriminate].
      destruct (mode_to_bpp_values _ _ Hv) as (bpp & -> & Hr).
      assert (Hne : getbands im <> []) by (rewrite Hb; discriminate).
      rewrite (getBPC_listed im bpp Hv Hne), Hb in H. injection H as <-.
      split; [discriminate|]. split; [|eauto].
      cbn [List.length].
      assert (Hn : 1 <= Z.of_nat (S (List.length bs))) by lia.
      split.
      * apply Z.div_pos; lia.
      * apply Z.le_trans with bpp; [|lia].
        apply Z.div_le_upper_bound; nia.
Qed.

Lemma open_password_report_shape PDF fileSize doc :
  getsize PDF = Ok fileSize ->
  pymupdf_open PDF = Ok doc ->
  authenticate doc "whatever" = Ok 0 ->
  getProperties PDF
  = Ok (Elt "properties" [] None
          [Elt "filePath" [] (Some PDF) [];
           Elt "fileSize" [] (Some (str_int fileSize)) [];
           Elt "openPassword" [] (Some "True") []]).
Proof.
  intros Hs Ho Ha. unfold getProperties. rewrite Hs. cbn [bind].
  rewrite Ho. cbn [bind]. rewrite Ha. reflexivity.
Qed.

(** X5.  A report has one of three shapes.  When opening or the probe
    raised: file path, file size and an exception container with one
    record, and no [openPassword] child.  When the probe answered 0:
    file path, file size and [openPassword] True, and no exception
    container.  Otherwise the nine children of the full report, whose
    file-level exception container is empty. *)
Theorem getProperties_report_shapes PDF report :
  getProperties PDF = Ok report ->
  exists fileSize,
    getsize PDF = Ok fileSize
    /\ ((exists e,
            (doc <- pymupdf_open PDF ;; rc <- authenticate doc "whatever" ;;
             Ok (doc, rc)) = Raise e
            /\ report = Elt "properties" [] None
                          [Elt "filePath" [] (Some PDF) [];
                           Elt "fileSize" [] (Some (str_int fileSize)) [];
                           Elt "exceptions" [] None
                             [Elt "exception" [] (Some (str_exn e)) []]])
        \/ (exists doc,
               pymupdf_open PDF = Ok doc
               /\ authenticate doc "whatever" = Ok 0
               /\ report = Elt "properties" [] None
                             [Elt "filePath" [] (Some PDF) [];
                              Elt "fileSize" [] (Some (str_int fileSize)) [];
                              Elt "openPassword" [] (Some "True") []])
        \/ (exists doc rc,
               pymupdf_open PDF = Ok doc
               /\ authenticate doc "whatever" = Ok rc
               /\ rc <> 0
               /\ map tag_of (children_of report)
                  = ["filePath"; "fileSize"; "openPassword"; "meta"; "PageMode";
                     "signatureFlag"; "noPages"; "pages"; "exceptions"]
               /\ find report "openPassword"
                  = Some (Elt "openPassword" [] (Some "False") [])
               /\ find report "exceptions" = Some (Elt "exceptions" [] None []))).
Proof.
  intros H. destruct (getProperties_getsize _ _ H) as [fileSize Hs].
  exists fileSize. split; [exact Hs|].
  destruct (doc <- pymupdf_open PDF ;; rc <- authenticate doc "whatever" ;;
            Ok (doc, rc)) as [[doc rc]|e] eqn:Hoa.
  - right.
    destruct (pymupdf_open PDF) as [doc'|e1] eqn:Ho; [|discriminate Hoa].
    cbn [bind] in Hoa.
    destruct (authenticate doc' "whatever") as [rc'|e2] eqn:Ha; [|discriminate Hoa].
    cbn [bind] in Hoa. injection Hoa as -> ->.
    destruct (Z.eq_dec rc 0) as [->|Hrc].
    + left. exists doc. split; [reflexivity|]. split; [exact Ha|].
      rewrite (open_password_report_shape PDF fileSize doc Hs Ho Ha) in H.
      now injection H as <-.
    + right. exists doc, rc. split; [reflexivity|]. split; [exact Ha|].
      split; [exact Hrc|].
      destruct (getProperties_report _ _ _ _ _ Hs Ho Ha Hrc H) as (elts & -> & _).
      repeat split.
  - left. exists e. split; [reflexivity|].
    rewrite (open_failure_report PDF fileSize e Hs Hoa) in H.
    now injection H as <-.
Qed.

(** X6.  In the report of a document that opened and needed no password
    the [PageMode] child holds the text undefined when the catalog
    lookup answers the type null, whatever value comes with it, and the
    value of the lookup otherwise. *)
Theorem page_mode_default PDF doc rc report :
  pymupdf_open PDF = Ok doc ->
  authenticate doc "whatever" = Ok rc ->
  rc <> 0 ->
  getProperties PDF = Ok report ->
  (fst (xref_get_key doc (pdf_catalog doc) "PageMode") = "null" ->
   find report "PageMode" = Some (Elt "PageMode" [] (Some "undefined") []))
  /\ (fst (xref_get_key doc (pdf_catalog doc) "PageMode") <> "null" ->
      find report "PageMode"
      = Some (Elt "PageMode" []
                  (Some (snd (xref_get_key doc (pdf_catalog doc) "PageMode"))) [])).
Proof.
  intros Ho Ha Hrc H. destruct (getProperties_getsize _ _ H) as [fileSize Hs].
  destruct (getProperties_report _ _ _ _ _ Hs Ho Ha Hrc H) as (elts & -> & _).
  unfold full_report, find. cbn [children_of List.find tag_of].
  change ("filePath" =? "PageMode")%string with false.
  change ("fileSize" =? "PageMode")%string with false.
  change ("openPassword" =? "PageMode")%string with false.
  change ("meta" =? "PageMode")%string with false.
  change ("PageMode" =? "PageMode")%string with true. cbv iota.
  split; intros Hk.
  - rewrite Hk. reflexivity.
  - apply String.eqb_neq in Hk. rewrite Hk. reflexivity.
Qed.

Lemma images_loop_app doc pageNo pre rest : forall pageElt,
  images_loop doc (pre ++ rest) pageNo pageElt
  = (r <- images_loop doc pre pageNo pageElt ;; images_loop doc rest pageNo r).
Proof.
  induction pre as [|image pre IH]; intros pageElt; cbn [app images_loop bind].
  - reflexivity.
  - destruct (getImageProperties doc image pageNo); cbn [bind]; [apply IH|reflexivity].
Qed.

Lemma pages_loop_app doc pre rest : forall pageNo pagesElt,
  pages_loop doc (pre ++ rest) pageNo pagesElt
  = (r <- pages_loop doc pre pageNo pagesElt ;;
     pages_loop doc rest (pageNo + Z.of_nat (List.length pre)) r).
Proof.
  induction pre as [|page pre IH]; intros pageNo pagesElt;
    cbn [app pages_loop bind List.length].
  - now rewrite Z.add_0_r.
  - destruct (getPageProperties doc page pageNo); cbn [bind]; [|reflexivity].
    rewrite IH.
    replace (pageNo + 1 + Z.of_nat (List.length pre))
      with (pageNo + Z.of_nat (S (List.length pre))) by lia.
    reflexivity.
Qed.

(** X7.  A page is given up at the first image reference that fails:
    when the references before it are extracted and its own extraction
    raises, [getPageProperties] raises that exception, whatever the
    references after it are.  A failure of the enumeration itself is
    raised as it is. *)
Theorem page_stops_at_first_failing_image doc page pageNo :
  (forall e, get_images page = Raise e ->
             getPageProperties doc page pageNo = Raise e)
  /\ forall before image after imageElts e,
      get_images page = Ok (before ++ image :: after) ->
      Forall2 (fun image imageElt =>
                 getImageProperties doc image pageNo = Ok imageElt)
              before imageElts ->
      getImageProperties doc image pageNo = Raise e ->
      getPageProperties doc page pageNo = Raise e.
Proof.
  split.
  - intros e Hg. unfold getPageProperties. now rewrite Hg.
  - intros before image after elts e Hg HF He. unfold getPageProperties.
    rewrite Hg. cbn [bind]. rewrite images_loop_app.
    unfold set_attrib, etree_Element. cbn [dict_set].
    rewrite (images_loop_intro _ _ _ _ HF). cbn [bind images_loop].
    now rewrite He.
Qed.

(** X8.  The walk over a document is given up at the first page that
    fails: when the pages before it are extracted and the extraction of
    the page, called with its 1-based number, raises, [getProperties]
    raises that exception and returns no report, whatever the pages
    after it are. *)
Theorem document_stops_at_first_failing_page
        PDF fileSize doc rc before page after pageElts e :
  getsize PDF = Ok fileSize ->
  pymupdf_open PDF = Ok doc ->
  authenticate doc "whatever" = Ok rc ->
  rc <> 0 ->
  doc_pages doc = before ++ page :: after ->
  pages_extracted doc 1 before pageElts ->
  getPageProperties doc page (1 + Z.of_nat (List.length before)) = Raise e ->
  getProperties PDF = Raise e.
Proof.
  intros Hs Ho Ha Hrc Hp Hb He.
  rewrite (getProperties_open _ _ _ _ Hs Ho Ha Hrc), Hp, pages_loop_app.
  rewrite (pages_loop_intro _ _ _ _ "pages" [] None [] Hb).
  cbn [bind pages_loop]. now rewrite He.
Qed.


(** X10.  On a reference of fewer than nine fields the image extractor
    raises the IndexError of the dictionary extractor; no stream is
    fetched or decoded, whatever the document is. *)
Theorem getImageProperties_short_reference doc (image : imageref) pageNo :
  (List.length image < 9)%nat ->
  getImageProperties doc image pageNo
  = Raise (IndexError "tuple index out of range").
Proof.
  intros Hlen. unfold getImageProperties.
  now rewrite (getImageDictProperties_short image pageNo Hlen).
Qed.

Lemma dict_keys_set_prefix {V} (d : pydict V) k v :
  exists more, dict_keys (dict_set d k v) = dict_keys d ++ more.
Proof.
  unfold dict_keys. induction d as [|[k0 v0] d IH]; cbn [dict_set map fst app].
  - now exists [k].
  - destruct (k0 =? k)%string; cbn [map fst].
    + exists []. now rewrite app_nil_r.
    + destruct IH as [more ->]. now exists more.
Qed.

Lemma dict_keys_assign_all_prefix writes : forall d,
  exists more, dict_keys (assign_all d writes) = dict_keys d ++ more.
Proof.
  induction writes as [|w ws IH]; intros d.
  - exists []. now rewrite app_nil_r.
  - unfold assign_all in *. cbn [fold_left].
    destruct (IH (dict_set d (fst w) (snd w))) as [more1 ->].
    destruct (dict_keys_set_prefix d (fst w) (snd w)) as [more0 ->].
    exists (more0 ++ more1). now rewrite app_assoc.
Qed.

Lemma tags_of_items (d : pydict pyval) :
  map tag_of (map item_elt d) = dict_keys d.
Proof.
  unfold dict_keys. rewrite map_map. apply map_ext. now intros [k v].
Qed.

(** X11.  The stream node returned for a decoded image starts with the
    children [format], [width], [height], [mode], [components], [bpc],
    in that order, and ends with the exception container: an entry of
    the auxiliary metadata that has one of these names changes the text
    of that child, not its place. *)
Theorem stream_node_leading_children stream pageNo im node :
  PIL_open stream = Ok im ->
  getImageStreamProperties stream pageNo = Ok node ->
  exists others,
    map tag_of (children_of node)
    = ["format"; "width"; "height"; "mode"; "components"; "bpc"]
        ++ others ++ ["exceptions"].
Proof.
  intros Ho Hn.
  destruct (getImageStreamProperties_returned _ _ _ _ Ho Hn) as (bpc & _ & ->).
  rewrite assign_all_app.
  destruct (dict_keys_assign_all_prefix
              (quality_writes im ++ flat_map item_writes (info im) ++ icc_writes im)
              (assign_all [] (base_writes im bpc))) as [others Hk].
  exists others. unfold stream_node. cbn [children_of].
  rewrite map_app, tags_of_items, Hk, <- app_assoc. reflexivity.
Qed.

Lemma quality_failures_length im : (List.length (quality_failures im) <= 1)%nat.
Proof.
  unfold quality_failures. destruct (format im =? "JPEG")%string; [|cbn; lia].
  destruct (computeJPEGQuality im); cbn; lia.
Qed.

Lemma icc_failures_length im : (List.length (icc_failures im) <= 1)%nat.
Proof.
  unfold icc_failures, icc_outcome.
  destruct (dict_getitem (info im) "icc_profile") as [icc|e]; [|cbn; lia].
  destruct (ImageCmsProfile icc) as [p|e]; [|cbn; lia].
  destruct (getProfileName p), (getProfileDescription p); cbn; lia.
Qed.

(** X12.  A stream node holds at most two exception records.  When the
    stream does not decode it holds exactly one and no property; when
    it decodes to a format other than JPEG it holds at most one, the
    one of the ICC profile. *)
Theorem stream_node_exception_count stream pageNo node :
  getImageStreamProperties stream pageNo = Ok node ->
  exists props msgs,
    node = stream_node props msgs
    /\ (List.length msgs <= 2)%nat
    /\ (forall e, PIL_open stream = Raise e -> props = [] /\ msgs = [str_exn e])
    /\ (forall im, PIL_open stream = Ok im -> format im <> "JPEG" ->
                   msgs = icc_failures im /\ (List.length msgs <= 1)%nat).
Proof.
  rewrite getImageStreamProperties_steps.
  destruct (PIL_open stream) as [im|e] eqn:Ho.
  - destruct (getBPC im) as [bpc|e]; cbn [bind]; [|discriminate].
    destruct (merge_info _ (info im)) as [merged|e]; cbn [bind]; [|discriminate].
    intros [= <-]. eexists _, _. split; [reflexivity|].
    pose proof (quality_failures_length im) as Hq.
    pose proof (icc_failures_length im) as Hi.
    split; [rewrite length_app; lia|]. split; [discriminate|].
    intros im' [= <-] Hf. apply String.eqb_neq in Hf.
    unfold quality_failures. rewrite Hf. cbn [app]. split; [reflexivity|exact Hi].
  - intros [= <-]. exists [], [str_exn e]. split; [reflexivity|].
    split; [cbn; lia|]. split; [intros e' [= <-]; auto|discriminate].
Qed.

(** X13.  The stream node returned for a decoded image whose auxiliary
    metadata has no [icc_profile] entry holds an exception record for
    it all the same: the text of the KeyError, the key between quotes,
    after the record of the quality estimate if there is one.  The ICC
    step assigned nothing: every property is the last write of the
    steps before it. *)
Theorem missing_icc_profile_recorded stream pageNo im node :
  PIL_open stream = Ok im ->
  dict_get (info im) "icc_profile" = None ->
  getImageStreamProperties stream pageNo = Ok node ->
  exists bpc props,
    getBPC im = Ok bpc
    /\ node = stream_node props (quality_failures im ++ ["'icc_profile'"])
    /\ forall key,
        dict_get props key
        = last_write key (base_writes im bpc ++ quality_writes im
                            ++ flat_map item_writes (info im)).
Proof.
  intros Ho Hi Hn.
  destruct (getImageStreamProperties_returned _ _ _ _ Ho Hn) as (bpc & Hb & ->).
  exists bpc. unfold icc_failures, icc_writes, icc_outcome, dict_getitem.
  rewrite Hi. cbn [fst snd str_exn]. rewrite !app_nil_r.
  eexists. split; [exact Hb|]. split; [reflexivity|]. intros key.
  rewrite dict_get_assign_all. now destruct (last_write key _).
Qed.

Lemma last_write_app key ws1 ws2 :
  last_write key (ws1 ++ ws2)
  = match last_write key ws2 with
    | Some v => Some v
    | None => last_write key ws1
    end.
Proof.
  induction ws1 as [|[k v] ws1 IH]; cbn [app last_write].
  - now destruct (last_write key ws2).
  - rewrite IH. destruct (last_write key ws2); reflexivity.
Qed.

(** X14.  When the profile is parsed and its name is read but reading
    its description raises, the name is kept: in the stream node
    returned, [icc_profile_name] holds the stripped name, the exception
    is the last record, and [icc_profile_description] is whatever the
    steps before had put under that key, if anything. *)
Theorem icc_name_kept_when_description_fails
        stream pageNo im icc profile name e node :
  PIL_open stream = Ok im ->
  dict_get (info im) "icc_profile" = Some icc ->
  ImageCmsProfile icc = Ok profile ->
  getProfileName profile = Ok name ->
  getProfileDescription profile = Raise e ->
  getImageStreamProperties stream pageNo = Ok node ->
  exists bpc props,
    getBPC im = Ok bpc
    /\ node = stream_node props (quality_failures im ++ [str_exn e])
    /\ dict_get props "icc_profile_name" = Some (PStr (str_strip name))
    /\ dict_get props "icc_profile_description"
       = last_write "icc_profile_description"
                    (base_writes im bpc ++ quality_writes im
                       ++ flat_map item_writes (info im)).
Proof.
  intros Ho Hi Hc Hname Hd Hn.
  destruct (getImageStreamProperties_returned _ _ _ _ Ho Hn) as (bpc & Hb & ->).
  exists bpc. unfold icc_failures, icc_writes, icc_outcome, dict_getitem.
  rewrite Hi, Hc, Hname, Hd. cbn [fst snd].
  eexists. split; [exact Hb|]. split; [reflexivity|].
  rewrite !dict_get_assign_all, !app_assoc.
  rewrite !(last_write_app _ _ [("icc_profile_name", PStr (str_strip name))]).
  cbn [last_write]. rewrite String.eqb_refl.
  change ("icc_profile_name" =? "icc_profile_description")%string with false.
  cbv iota. split; [reflexivity|].
  now destruct (last_write "icc_profile_description" _).
Qed.

(** X15.  When the profile is parsed and both its name and description
    are read, the stream node returned has no exception record for it,
    and [icc_profile_name] and [icc_profile_description] hold the
    stripped name and description, whatever the auxiliary metadata had
    put under these keys. *)
Theorem icc_names_recorded stream pageNo im icc profile name description node :
  PIL_open stream = Ok im ->
  dict_get (info im) "icc_profile" = Some icc ->
  ImageCmsProfile icc = Ok profile ->
  getProfileName profile = Ok name ->
  getProfileDescription profile = Ok description ->
  getImageStreamProperties stream pageNo = Ok node ->
  exists props,
    node = stream_node props (quality_failures im)
    /\ dict_get props "icc_profile_name" = Some (PStr (str_strip name))
    /\ dict_get props "icc_profile_description"
       = Some (PStr (str_strip description)).
Proof.
  intros Ho Hi Hc Hname Hd Hn.
  destruct (getImageStreamProperties_returned _ _ _ _ Ho Hn) as (bpc & Hb & ->).
  unfold icc_failures, icc_writes, icc_outcome, dict_getitem.
  rewrite Hi, Hc, Hname, Hd. cbn [fst snd]. rewrite app_nil_r.
  eexists. split; [reflexivity|].
  rewrite !dict_get_assign_all, !app_assoc.
  rewrite !(last_write_app _ _ [("icc_profile_name", PStr (str_strip name));
                                ("icc_profile_description",
                                 PStr (str_strip description))]).
  cbn [last_write]. rewrite !String.eqb_refl.
  change ("icc_profile_description" =? "icc_profile_name")%string with false.
  split; reflexivity.
Qed.

Lemma merge_info_app before rest : forall d,
  merge_info d (before ++ rest) = (d' <- merge_info d before ;; merge_info d' rest).
Proof.
  induction before as [|item before IH]; intros d; cbn [app merge_info bind].
  - reflexivity.
  - destruct (merge_item d item); cbn [bind]; [apply IH|reflexivity].
Qed.

Lemma merge_item_short d key items :
  key = "dpi" \/ key = "jfif_density" ->
  (List.length items < 2)%nat ->
  merge_item d (key, PTuple items) = Raise (IndexError "tuple index out of range").
Proof.
  intros Hk Hlen. unfold merge_item. cbn [is_bytes is_tuple].
  destruct items as [|x [|y r]]; cbn [List.length] in Hlen; try lia;
    destruct Hk as [->| ->]; reflexivity.
Qed.

(** X16.  A tuple of fewer than two items under [dpi] or [jfif_density]
    makes the stream extractor raise IndexError although the image
    decoded: the subscripts of the merge loop are outside the try
    blocks, so no stream node is returned. *)
Theorem short_density_tuple_raises stream pageNo im bpc before key items after :
  PIL_open stream = Ok im ->
  getBPC im = Ok bpc ->
  info im = before ++ (key, PTuple items) :: after ->
  forallb pair_entry before = true ->
  key = "dpi" \/ key = "jfif_density" ->
  (List.length items < 2)%nat ->
  getImageStreamProperties stream pageNo
  = Raise (IndexError "tuple index out of range").
Proof.
  intros Ho Hb Hi Hp Hk Hlen.
  rewrite getImageStreamProperties_steps, Ho, Hb. cbn [bind].
  rewrite Hi, merge_info_app, (merge_info_writes _ _ Hp). cbn [bind merge_info].
  now rewrite (merge_item_short _ key items Hk Hlen).
Qed.

(** X19.  In the report of a document that opened and needed no
    password, the [meta] child has one child per entry of the document
    metadata, and every entry is found there under its key, holding
    [str] of its value. *)
Theorem metadata_found_under_meta PDF doc rc report :
  pymupdf_open PDF = Ok doc ->
  authenticate doc "whatever" = Ok rc ->
  rc <> 0 ->
  getProperties PDF = Ok report ->
  exists metaElt,
    find report "meta" = Some metaElt
    /\ List.length (children_of metaElt) = List.length (metadata doc)
    /\ forall key value,
        dict_get (metadata doc) key = Some value ->
        find metaElt key = Some (Elt key [] (Some (str value)) []).
Proof.
  intros Ho Ha Hrc H. destruct (getProperties_getsize _ _ H) as [fileSize Hs].
  destruct (getProperties_report _ _ _ _ _ Hs Ho Ha Hrc H) as (elts & -> & _).
  eexists. split; [reflexivity|]. cbn [children_of]. split.
  - apply length_map.
  - intros key value Hg. unfold find. cbn [children_of].
    rewrite find_item_elt, Hg. reflexivity.
Qed.

(** X20.  Every report, whatever its shape, starts with the file path as
    given and the file size; the text of [fileSize] read back with [int]
    is the size [os.path.getsize] answered. *)
Theorem report_starts_with_path_and_size PDF report :
  getProperties PDF = Ok report ->
  exists fileSize rest,
    getsize PDF = Ok fileSize
    /\ report = Elt "properties" [] None
                    (Elt "filePath" [] (Some PDF) []
                     :: Elt "fileSize" [] (Some (str_int fileSize)) [] :: rest)
    /\ int_of_child_text report "fileSize" = Ok fileSize.
Proof.
  intros H. destruct (getProperties_getsize _ _ H) as [fileSize Hs].
  exists fileSize.
  assert (Hshape : exists rest,
             report = Elt "properties" [] None
                          (Elt "filePath" [] (Some PDF) []
                           :: Elt "fileSize" [] (Some (str_int fileSize)) [] :: rest)).
  { destruct (doc <- pymupdf_open PDF ;; rc <- authenticate doc "whatever" ;;
              Ok (doc, rc)) as [[doc rc]|e] eqn:Hoa.
    - destruct (pymupdf_open PDF) as [doc'|e1] eqn:Ho; [|discriminate Hoa].
      cbn [bind] in Hoa.
      destruct (authenticate doc' "whatever") as [rc'|e2] eqn:Ha; [|discriminate Hoa].
      cbn [bind] in Hoa. injection Hoa as -> ->.
      destruct (Z.eq_dec rc 0) as [->|Hrc].
      + rewrite (open_password_report_shape PDF fileSize doc Hs Ho Ha) in H.
        injection H as <-. eauto.
      + destruct (getProperties_report _ _ _ _ _ Hs Ho Ha Hrc H) as (elts & -> & _).
        unfold full_report. eauto.
    - rewrite (open_failure_report PDF fileSize e Hs Hoa) in H.
      injection H as <-. eauto. }
  destruct Hshape as [rest ->]. exists rest. split; [exact Hs|].
  split; [reflexivity|].
  change (int_of_child_text _ "fileSize") with (int_of_str (str_int fileSize)).
  apply int_of_str_str_int.
Qed.

End Properties.

(** ** The statements on the sample inputs *)

Local Abbreviation sample_getProperties :=
  (getProperties sample_repr sample_getsize sample_open sample_PIL_open
                 sample_quality sample_cms sample_strip sample_int_literal).
Local Abbreviation sample_getImageStreamProperties :=
  (getImageStreamProperties sample_repr sample_PIL_open sample_quality sample_cms sample_strip).

Local Abbreviation scan_doc :=
  (sample_doc 1 [[sample_ref 7 "Im1" "DCTDecode"; sample_ref 9 "Im2" "CCITTFaxDecode"];
                 [sample_ref 8 "Im3" "DCTDecode"]]).

(** C2 on the grey-with-alpha image. *)
Lemma getBPC_unlisted_mode_witness :
  mode_listed sample_alpha = false
  /\ getBPC sample_alpha = Raise (KeyError "LA")
  /\ sample_getImageStreamProperties [Byte.x03] 2 = Raise (KeyError "LA").
Proof.
  assert (Hm : mode_listed sample_alpha = false) by reflexivity.
  destruct (getBPC_unlisted_mode_raises sample_repr sample_PIL_open sample_quality
              sample_cms sample_strip sample_alpha Hm) as [Hb Hs].
  split; [exact Hm|]. split; [exact Hb|].
  apply (Hs [Byte.x03] 2). reflexivity.
Defined.





(** C6 as stated fails: a PNG whose text chunk is keyed JPEGQuality gets
    a [JPEGQuality] child although its format is not JPEG. *)
Lemma jpeg_quality_field_without_jpeg :
  exists node,
    sample_PIL_open [Byte.x04] = Ok sample_png
    /\ (format sample_png =? "JPEG")%string = false
    /\ sample_getImageStreamProperties [Byte.x04] 1 = Ok node
    /\ has_child node "JPEGQuality" = true.
Proof. eexists. repeat split. Qed.

(** C6 (as amended) on the sample JPEG and on the JPEG whose estimate
    fails. *)
Lemma jpeg_quality_fields_witness :
  (exists node,
      sample_getImageStreamProperties [Byte.x01] 1 = Ok node
      /\ has_child node "JPEGQuality" = true)
  /\ (exists props,
         sample_getImageStreamProperties [Byte.x02] 1
         = Ok (stream_node sample_repr props
                           ["no quantization tables"; "'icc_profile'"])).
Proof.
  split.
  - destruct (sample_getImageStreamProperties [Byte.x01] 1) as [node|e] eqn:E;
      [|discriminate E].
    destruct (jpeg_quality_fields sample_repr sample_PIL_open sample_quality
                sample_cms sample_strip [Byte.x01] 1 sample_jpeg node eq_refl E)
      as [Hiff _].
    exists node. split; [reflexivity|].
    apply (Hiff "JPEGQuality"); [now left|]. left. reflexivity.
  - destruct (sample_getImageStreamProperties [Byte.x02] 1) as [node|e] eqn:E;
      [|discriminate E].
    destruct (jpeg_quality_fields sample_repr sample_PIL_open sample_quality
                sample_cms sample_strip [Byte.x02] 1 sample_jpeg_noq node eq_refl E)
      as [_ Hfail].
    destruct (Hfail (Raised "no quantization tables") eq_refl eq_refl)
      as (bpc & props & _ & -> & _).
    exists props. reflexivity.
Defined.

(** C7 as stated fails: a tuple of three items under [dpi] is not
    dropped but split on its first two items, and a tuple of one item
    makes the stream extractor raise although the image decoded. *)
Lemma density_tuple_not_dropped :
  (exists node,
      getImageStreamProperties sample_repr
        (fun _ => Ok {| format := "TIFF"; size := (8, 8); mode := "L";
                        getbands := ["L"];
                        info := [("dpi", PTuple [PInt 72; PInt 96; PInt 2])] |})
        sample_quality sample_cms sample_strip [Byte.x00] 1 = Ok node
      /\ find node "ppi_x" = Some (Elt "ppi_x" [] (Some "72") [])
      /\ find node "ppi_y" = Some (Elt "ppi_y" [] (Some "96") []))
  /\ getImageStreamProperties sample_repr
       (fun _ => Ok {| format := "TIFF"; size := (8, 8); mode := "L";
                       getbands := ["L"];
                       info := [("dpi", PTuple [PInt 72])] |})
       sample_quality sample_cms sample_strip [Byte.x00] 1
     = Raise (IndexError "tuple index out of range").
Proof. split; [eexists; repeat split|reflexivity]. Qed.

(** C7 (as amended) on the sample JPEG: the density pair is split, the
    ICC bytes are the marker, the tuple itself is not a property. *)
Lemma auxiliary_metadata_merge_witness :
  exists props msgs,
    sample_getImageStreamProperties [Byte.x01] 1
    = Ok (stream_node sample_repr props msgs)
    /\ dict_get props "ppi_x" = Some (PInt 300)
    /\ dict_get props "jfif_density_y" = Some (PInt 300)
    /\ dict_get props "icc_profile" = Some (PStr "bytestream")
    /\ dict_get props "jfif" = Some (PInt 257)
    /\ dict_get props "dpi" = None.
Proof.
  destruct (sample_getImageStreamProperties [Byte.x01] 1) as [node|e] eqn:E;
    [|discriminate E].
  destruct (auxiliary_metadata_merge sample_repr sample_PIL_open sample_quality
              sample_cms sample_strip [Byte.x01] 1 sample_jpeg node eq_refl E)
    as (bpc & props & msgs & Hb & -> & _ & Hget).
  injection Hb as <-.
  exists props, msgs. split; [reflexivity|].
  repeat split; rewrite Hget; reflexivity.
Defined.





(** C9 on the scanned file: two pages, numbered 1 and 2. *)
Lemma pages_and_images_in_order_witness :
  exists report pageElts,
    sample_getProperties "scan.pdf" = Ok report
    /\ find report "pages" = Some (Elt "pages" [] None pageElts)
    /\ find report "noPages" = Some (Elt "noPages" [] (Some "2") [])
    /\ List.length pageElts = 2%nat.
Proof.
  destruct (sample_getProperties "scan.pdf") as [report|e] eqn:E;
    [|discriminate E].
  assert (Hrc : 1 <> 0) by discriminate.
  destruct (pages_and_images_in_order sample_repr sample_getsize sample_open
              sample_PIL_open sample_quality sample_cms
              sample_strip sample_int_literal "scan.pdf" scan_doc 1 report
              eq_refl eq_refl Hrc eq_refl E)
    as (pageElts & Hpages & Hno & Hlen & _).
  exists report, pageElts. split; [reflexivity|]. split; [exact Hpages|].
  rewrite Hno, Hlen. split; reflexivity.
Defined.

(** C10 on the scanned file, whose signature flags are -1. *)
Lemma signature_flag_rendered_witness :
  exists report,
    sample_getProperties "scan.pdf" = Ok report
    /\ filter (fun child => (tag_of child =? "signatureFlag")%string)
              (children_of report)
       = [Elt "signatureFlag" [] (Some "-1") []].
Proof.
  destruct (sample_getProperties "scan.pdf") as [report|e] eqn:E;
    [|discriminate E].
  assert (Hrc : 1 <> 0) by discriminate.
  destruct (signature_flag_rendered sample_repr sample_getsize sample_open
              sample_PIL_open sample_quality sample_cms
              sample_strip sample_int_literal "scan.pdf" scan_doc 1 report
              eq_refl eq_refl Hrc E) as (Hflag & _ & _).
  exists report. split; [reflexivity|]. exact Hflag.
Defined.

(** ** Further properties, on the sample inputs and across estimators *)

(** X18.  The stream extractor uses the quality estimator on JPEG images
    only, and of its answer only the quality, the normalised squared
    error and, when it raises, the message: two estimators that agree on
    these for every JPEG image give the same result on every stream. *)
Theorem estimator_used_for_jpeg_only
        repr PIL_open (estimator estimator' : Image -> result (pyval * pyval * pyval))
        ImageCmsProfile str_strip :
  (forall im,
      format im = "JPEG" ->
      match estimator im, estimator' im with
      | Ok (quality, _, nse), Ok (quality', _, nse') =>
          quality = quality' /\ nse = nse'
      | Raise e, Raise e' => str_exn e = str_exn e'
      | _, _ => False
      end) ->
  forall stream pageNo,
    getImageStreamProperties repr PIL_open estimator ImageCmsProfile str_strip
                             stream pageNo
    = getImageStreamProperties repr PIL_open estimator' ImageCmsProfile str_strip
                               stream pageNo.
Proof.
  intros Hagree stream pageNo. rewrite !getImageStreamProperties_steps.
  destruct (PIL_open stream) as [im|e]; [|reflexivity].
  assert (Hw : quality_writes estimator im = quality_writes estimator' im
               /\ quality_failures estimator im = quality_failures estimator' im).
  { unfold quality_writes, quality_failures.
    destruct (String.eqb_spec (format im) "JPEG") as [Hf|_]; [|auto].
    specialize (Hagree im Hf).
    destruct (estimator im) as [[[q r] n]|e1], (estimator' im) as [[[q' r'] n']|e2];
      try contradiction.
    - destruct Hagree as [-> ->]. auto.
    - rewrite Hagree. auto. }
  destruct Hw as [-> ->]. reflexivity.
Qed.

(** X3 on the sample JPEG: three bands, 8 bits each. *)
Lemma getBPC_result_witness :
  exists bpc, getBPC sample_jpeg = Ok bpc /\ 0 <= bpc <= 32.
Proof.
  destruct (getBPC_result sample_jpeg) as [Hiff Hres].
  destruct (proj1 Hiff eq_refl) as [bpc Hb].
  exists bpc. split; [exact Hb|].
  destruct (Hres bpc Hb) as [[Hnone _]|(_ & Hr & _)]; [discriminate Hnone|exact Hr].
Defined.

(** X5 on the scanned file: the full shape. *)
Lemma getProperties_report_shapes_witness :
  exists report,
    sample_getProperties "scan.pdf" = Ok report
    /\ find report "exceptions" = Some (Elt "exceptions" [] None []).
Proof.
  destruct (sample_getProperties "scan.pdf") as [report|e] eqn:E;
    [|discriminate E].
  exists report. split; [reflexivity|].
  destruct (getProperties_report_shapes sample_repr sample_getsize sample_open
              sample_PIL_open sample_quality sample_cms
              sample_strip sample_int_literal "scan.pdf" report E)
    as (fileSize & _ & [(e & He & _)|[(doc & Ho & Ha & _)|(doc & rc & _ & _ & _ & _ & _ & Hx)]]).
  - discriminate He.
  - injection Ho as <-. discriminate Ha.
  - exact Hx.
Defined.

(** X6 on the scanned file, whose catalog has no PageMode. *)
Lemma page_mode_default_witness :
  exists report,
    sample_getProperties "scan.pdf" = Ok report
    /\ find report "PageMode" = Some (Elt "PageMode" [] (Some "undefined") []).
Proof.
  destruct (sample_getProperties "scan.pdf") as [report|e] eqn:E;
    [|discriminate E].
  assert (Hrc : 1 <> 0) by discriminate.
  destruct (page_mode_default sample_repr sample_getsize sample_open
              sample_PIL_open sample_quality sample_cms
              sample_strip sample_int_literal "scan.pdf" scan_doc 1 report
              eq_refl eq_refl Hrc E) as [Hnull _].
  exists report. split; [reflexivity|]. apply Hnull. reflexivity.
Defined.

(** X7 on a page whose second reference has no stream. *)
Lemma page_stops_at_first_failing_image_witness :
  getPageProperties sample_repr sample_PIL_open sample_quality sample_cms
  sample_strip sample_int_literal
    (sample_doc 1 [])
    {| get_images := Ok [sample_ref 7 "Im1" "DCTDecode";
                         sample_ref 12 "Im2" "DCTDecode";
                         sample_ref 8 "Im3" "DCTDecode"] |} 1
  = Raise (Raised "bad xref").
Proof.
  destruct (page_stops_at_first_failing_image sample_repr sample_PIL_open
              sample_quality sample_cms sample_strip sample_int_literal (sample_doc 1 [])
              {| get_images := Ok [sample_ref 7 "Im1" "DCTDecode";
                                   sample_ref 12 "Im2" "DCTDecode";
                                   sample_ref 8 "Im3" "DCTDecode"] |} 1)
    as [_ H].
  eapply (H [sample_ref 7 "Im1" "DCTDecode"] (sample_ref 12 "Im2" "DCTDecode")
            [sample_ref 8 "Im3" "DCTDecode"]).
  - reflexivity.
  - constructor; [vm_compute; reflexivity|constructor].
  - reflexivity.
Defined.

(** X8 on the file whose second page holds the grey-with-alpha image. *)
Lemma document_stops_at_first_failing_page_witness :
  sample_getProperties "alpha.pdf" = Raise (KeyError "LA").
Proof.
  assert (Hrc : 1 <> 0) by discriminate.
  eapply document_stops_at_first_failing_page
    with (fileSize := 4096) (rc := 1)
         (doc := sample_doc 1 [[sample_ref 7 "Im1" "DCTDecode"];
                               [sample_ref 10 "Im2" "JPXDecode"]])
         (before := [{| get_images := Ok [sample_ref 7 "Im1" "DCTDecode"] |}])
         (page := {| get_images := Ok [sample_ref 10 "Im2" "JPXDecode"] |})
         (after := []) (pageElts := [_]);
    try reflexivity.
  - exact Hrc.
  - split; [vm_compute; reflexivity|exact I].
Defined.


(** X10 on the eight-field tuple. *)
Lemma getImageProperties_short_reference_witness :
  getImageProperties sample_repr sample_PIL_open sample_quality sample_cms
  sample_strip sample_int_literal
    (sample_doc 1 []) sample_ref8 1
  = Raise (IndexError "tuple index out of range").
Proof.
  apply getImageProperties_short_reference. cbn. lia.
Defined.

(** X11 on the sample JPEG. *)
Lemma stream_node_leading_children_witness :
  exists node others,
    sample_getImageStreamProperties [Byte.x01] 1 = Ok node
    /\ map tag_of (children_of node)
       = ["format"; "width"; "height"; "mode"; "components"; "bpc"]
           ++ others ++ ["exceptions"].
Proof.
  destruct (sample_getImageStreamProperties [Byte.x01] 1) as [node|e] eqn:E;
    [|discriminate E].
  destruct (stream_node_leading_children sample_repr sample_PIL_open
              sample_quality sample_cms sample_strip [Byte.x01] 1 sample_jpeg node
              eq_refl E) as [others H].
  exists node, others. split; [reflexivity|exact H].
Defined.

(** X12 on the JPEG whose estimate fails and that has no profile. *)
Lemma stream_node_exception_count_witness :
  exists props msgs,
    sample_getImageStreamProperties [Byte.x02] 1
    = Ok (stream_node sample_repr props msgs)
    /\ (List.length msgs <= 2)%nat.
Proof.
  destruct (sample_getImageStreamProperties [Byte.x02] 1) as [node|e] eqn:E;
    [|discriminate E].
  destruct (stream_node_exception_count sample_repr sample_PIL_open sample_quality
              sample_cms sample_strip [Byte.x02] 1 node E) as (props & msgs & -> & Hlen & _).
  exists props, msgs. split; [reflexivity|exact Hlen].
Defined.

(** X13 on the JPEG that has no profile. *)
Lemma missing_icc_profile_recorded_witness :
  exists props,
    sample_getImageStreamProperties [Byte.x02] 1
    = Ok (stream_node sample_repr props ["no quantization tables"; "'icc_profile'"]).
Proof.
  destruct (sample_getImageStreamProperties [Byte.x02] 1) as [node|e] eqn:E;
    [|discriminate E].
  destruct (missing_icc_profile_recorded sample_repr sample_PIL_open sample_quality
              sample_cms sample_strip [Byte.x02] 1 sample_jpeg_noq node
              eq_refl eq_refl E) as (bpc & props & _ & -> & _).
  exists props. reflexivity.
Defined.

(** X14 with a parser whose profiles have a name and no description. *)
Lemma icc_name_kept_when_description_fails_witness :
  exists props,
    getImageStreamProperties sample_repr sample_PIL_open sample_quality
      (fun _ => Ok {| getProfileName := Ok " sRGB ";
                      getProfileDescription := Raise (Raised "no description") |})
      sample_strip [Byte.x01] 1
    = Ok (stream_node sample_repr props ["no description"])
    /\ dict_get props "icc_profile_name" = Some (PStr "sRGB")
    /\ dict_get props "icc_profile_description" = None.
Proof.
  destruct (getImageStreamProperties sample_repr sample_PIL_open sample_quality
              (fun _ => Ok {| getProfileName := Ok " sRGB ";
                              getProfileDescription :=
                                Raise (Raised "no description") |})
              sample_strip [Byte.x01] 1) as [node|e0] eqn:E; [|discriminate E].
  destruct (icc_name_kept_when_description_fails sample_repr sample_PIL_open
              sample_quality
              (fun _ => Ok {| getProfileName := Ok " sRGB ";
                              getProfileDescription :=
                                Raise (Raised "no description") |})
              sample_strip [Byte.x01] 1 sample_jpeg (PBytes [Byte.x49])
              {| getProfileName := Ok " sRGB ";
                 getProfileDescription := Raise (Raised "no description") |}
              " sRGB " (Raised "no description") node
              eq_refl eq_refl eq_refl eq_refl eq_refl E)
    as (bpc & props & Hb & -> & Hn & Hd).
  injection Hb as <-.
  exists props. split; [reflexivity|]. split; [exact Hn|]. rewrite Hd. reflexivity.
Defined.

(** X15 on the sample JPEG. *)
Lemma icc_names_recorded_witness :
  exists props,
    sample_getImageStreamProperties [Byte.x01] 1
    = Ok (stream_node sample_repr props [])
    /\ dict_get props "icc_profile_name" = Some (PStr "sRGB")
    /\ dict_get props "icc_profile_description" = Some (PStr "sRGB IEC61966-2.1").
Proof.
  destruct (sample_getImageStreamProperties [Byte.x01] 1) as [node|e] eqn:E;
    [|discriminate E].
  destruct (icc_names_recorded sample_repr sample_PIL_open sample_quality sample_cms
              sample_strip [Byte.x01] 1 sample_jpeg (PBytes [Byte.x49])
              {| getProfileName := Ok " sRGB ";
                 getProfileDescription := Ok "sRGB IEC61966-2.1 " |}
              " sRGB " "sRGB IEC61966-2.1 " node
              eq_refl eq_refl eq_refl eq_refl eq_refl E)
    as (props & -> & Hn & Hd).
  exists props. split; [reflexivity|]. split; assumption.
Defined.

(** X16 with a decoder that reports a one-item [dpi]. *)
Lemma short_density_tuple_raises_witness :
  getImageStreamProperties sample_repr
    (fun _ => Ok {| format := "PNG"; size := (8, 8); mode := "L"; getbands := ["L"];
                    info := [("gamma", PObj "0.45455"); ("dpi", PTuple [PInt 72])] |})
    sample_quality sample_cms sample_strip [Byte.x00] 1
  = Raise (IndexError "tuple index out of range").
Proof.
  apply (short_density_tuple_raises sample_repr
           (fun _ => Ok {| format := "PNG"; size := (8, 8); mode := "L";
                           getbands := ["L"];
                           info := [("gamma", PObj "0.45455");
                                    ("dpi", PTuple [PInt 72])] |})
           sample_quality sample_cms sample_strip [Byte.x00] 1
           {| format := "PNG"; size := (8, 8); mode := "L"; getbands := ["L"];
              info := [("gamma", PObj "0.45455"); ("dpi", PTuple [PInt 72])] |}
           8 [("gamma", PObj "0.45455")] "dpi" [PInt 72] []);
    try reflexivity.
  - now left.
  - cbn. lia.
Defined.

(** X18 with an estimator that reports another rms error and answers
    for every format. *)
Lemma estimator_used_for_jpeg_only_witness :
  getImageStreamProperties sample_repr sample_PIL_open sample_quality sample_cms sample_strip
    [Byte.x04] 1
  = getImageStreamProperties sample_repr sample_PIL_open
      (fun im => if (format im =? "JPEG")%string
                 then match sample_quality im with
                      | Ok (quality, _, nse) => Ok (quality, PObj "7.5", nse)
                      | Raise e => Raise e
                      end
                 else Ok (PObj "1.0", PObj "1.0", PObj "1.0"))
      sample_cms sample_strip [Byte.x04] 1.
Proof.
  apply estimator_used_for_jpeg_only. intros im Hf.
  cbv beta. rewrite Hf, String.eqb_refl.
  destruct (sample_quality im) as [[[q r] n]|e]; auto.
Defined.

(** X19 on the scanned file: the title entry, whose value is None. *)
Lemma metadata_found_under_meta_witness :
  exists report metaElt,
    sample_getProperties "scan.pdf" = Ok report
    /\ find report "meta" = Some metaElt
    /\ find metaElt "title" = Some (Elt "title" [] (Some "None") []).
Proof.
  destruct (sample_getProperties "scan.pdf") as [report|e] eqn:E;
    [|discriminate E].
  assert (Hrc : 1 <> 0) by discriminate.
  destruct (metadata_found_under_meta sample_repr sample_getsize sample_open
              sample_PIL_open sample_quality sample_cms
              sample_strip sample_int_literal "scan.pdf" scan_doc 1 report
              eq_refl eq_refl Hrc E) as (metaElt & Hm & _ & Hfind).
  exists report, metaElt. split; [reflexivity|]. split; [exact Hm|].
  apply (Hfind "title" PNone). reflexivity.
Defined.

(** X20 on the locked file. *)
Lemma report_starts_with_path_and_size_witness :
  exists report,
    sample_getProperties "locked.pdf" = Ok report
    /\ int_of_child_text sample_int_literal report "fileSize" = Ok 4096.
Proof.
  destruct (sample_getProperties "locked.pdf") as [report|e] eqn:E;
    [|discriminate E].
  destruct (report_starts_with_path_and_size sample_repr sample_getsize sample_open
              sample_PIL_open sample_quality sample_cms
              sample_strip sample_int_literal "locked.pdf" report E)
    as (fileSize & rest & Hs & _ & Hi).
  exists report. split; [reflexivity|].
  injection Hs as <-. exact Hi.
Defined.
